(** * Monthly schedule grid of [src/App.tsx]

    A shallow embedding of the two pieces of logic of the schedule page:
    the rule engine [getInstructor] (App.tsx, lines 22-61) and the grid
    builder [scheduleGrid] (App.tsx, lines 64-112), together with the
    properties the specification states about them.

    Days and hours are JavaScript numbers that only ever hold integers; they
    are modelled as [Z].  Array indices, [daysInMonth] and [rowspan] are
    natural numbers.  The grid is a JavaScript array of rows, each row an
    array of cell objects; it is modelled as a list of lists that is
    threaded through the loops, every indexed access written out with the
    behaviour JavaScript has when the index is out of range. *)

From stdpp Require Import base option list strings.
From Stdlib Require Import ZArith Lia.

(** ** The rule engine *)

Section RuleEngine.
Open Scope Z_scope.

(** [getInstructor], App.tsx lines 22-61: an if-chain on two numbers. *)
Definition getInstructor (day hour : Z) : option string :=
  if ((day =? 9) || (day =? 16) || (day =? 29)) && ((hour >=? 8) && (hour <=? 9))
  then Some "Sosa"
  else if day =? 13
  then (if (hour >=? 10) && (hour <=? 20) then Some "Gota" else None)
  else if day =? 20
  then (if (hour >=? 11) && (hour <=? 13) then Some "Emi" else None)
  else if ((day =? 17) || (day =? 28)) && ((hour >=? 10) && (hour <=? 16))
  then Some "Gota"
  else if ((day =? 3) || (day =? 24)) && ((hour >=? 11) && (hour <=? 13))
  then Some "Emi"
  else if (hour >=? 17) && (hour <=? 20)
  then Some "Gota"
  else if (hour >=? 10) && (hour <=? 16)
  then Some "Kayo"
  else None.

(** The body of [getInstructor] has no [throw]: a call either returns a
    string or [null].  [outcome] is what a caller can observe of a call. *)
Inductive outcome : Type :=
| Returned (v : option string)
| Thrown.

Definition callGetInstructor (day hour : Z) : outcome :=
  Returned (getInstructor day hour).

(** *** The precedence table of the specification (section 4.1)

    Each rule has a guard and the value it assigns once the guard holds;
    the first rule whose guard holds decides. *)
Record Rule : Type := mkRule {
  applies : Z -> Z -> bool;
  assigns : Z -> Z -> option string
}.

Definition within (lo hi x : Z) : bool := (lo <=? x) && (x <=? hi).

Definition dayIn (days : list Z) (day : Z) : bool :=
  existsb (Z.eqb day) days.

Definition precedence : list Rule :=
  [ mkRule (fun day hour => dayIn [9; 16; 29] day && within 8 9 hour)
           (fun _ _ => Some "Sosa");
    mkRule (fun day _ => day =? 13)
           (fun _ hour => if within 10 20 hour then Some "Gota" else None);
    mkRule (fun day _ => day =? 20)
           (fun _ hour => if within 11 13 hour then Some "Emi" else None);
    mkRule (fun day hour => dayIn [17; 28] day && within 10 16 hour)
           (fun _ _ => Some "Gota");
    mkRule (fun day hour => dayIn [3; 24] day && within 11 13 hour)
           (fun _ _ => Some "Emi");
    mkRule (fun _ hour => within 17 20 hour) (fun _ _ => Some "Gota");
    mkRule (fun _ hour => within 10 16 hour) (fun _ _ => Some "Kayo");
    mkRule (fun _ _ => true) (fun _ _ => None) ].

Fixpoint firstMatch (rules : list Rule) (day hour : Z) : option string :=
  match rules with
  | [] => None
  | r :: rest =>
      if applies r day hour then assigns r day hour
      else firstMatch rest day hour
  end.

(** [assignInstructor] is the specification's name for the engine. *)
Definition assignInstructor (day hour : Z) : option string :=
  firstMatch precedence day hour.

(** Days that some rule names explicitly. *)
Definition specialDays : list Z := [9; 16; 29; 13; 20; 17; 28; 3; 24].

End RuleEngine.

(** ** Calendar constants and grid cells *)

(** [calendarInfo], App.tsx lines 6-17. *)
Record Calendar : Type := mkCalendar {
  YEAR : Z;
  MONTH : Z;
  monthName : string;
  daysInMonth : nat;
  dayNames : list string;
  hours : list Z;
  holidays : list Z
}.

(** The constants of the page: November 2025.  [daysInMonth] is the value of
    [new Date(2025, 11, 0).getDate()], the last day of November. *)
Definition calendarInfo : Calendar :=
  {| YEAR := 2025;
     MONTH := 10;
     monthName := "11月";
     daysInMonth := 30;
     dayNames := ["日"; "月"; "火"; "水"; "木"; "金"; "土"];
     hours := [8; 9; 10; 11; 12; 13; 14; 15; 16; 17; 18; 19; 20]%Z;
     holidays := [5; 6; 10; 25]%Z |}.

(** A second calendar, used to try the builder on an hour list that is not
    ascending: on day 1 the engine gives Kayo, nothing, Kayo. *)
Definition gapCalendar : Calendar :=
  {| YEAR := 2025;
     MONTH := 10;
     monthName := "11月";
     daysInMonth := 2;
     dayNames := ["日"; "月"; "火"; "水"; "木"; "金"; "土"];
     hours := [10; 9; 11]%Z;
     holidays := [2]%Z |}.

(** The page's schedule with another year in the heading: the fields the
    builder reads are those of [calendarInfo]. *)
Definition calendarNextYear : Calendar :=
  {| YEAR := 2026;
     MONTH := 10;
     monthName := "11月 (2026)";
     daysInMonth := daysInMonth calendarInfo;
     dayNames := [];
     hours := hours calendarInfo;
     holidays := holidays calendarInfo |}.

(** A shorter month with the page's hours and another holiday list: day 5
    twice, day 11, and a day 40 that the month does not have. *)
Definition shortMonth : Calendar :=
  {| YEAR := 2026;
     MONTH := 1;
     monthName := "2月";
     daysInMonth := 28;
     dayNames := dayNames calendarInfo;
     hours := hours calendarInfo;
     holidays := [40; 5; 11; 5]%Z |}.

(** [GridCell], the interface of [types.ts]. *)
Record GridCell : Type := mkCell {
  instructor : option string;
  rowspan : nat;
  hidden : bool
}.

(** [GridCell[][]]: the rows of the table, each a row of cells. *)
Abbreviation Grid := (list (list GridCell)).

(** The three field assignments the builder performs on a cell object. *)
Definition setInstructor (v : option string) (c : GridCell) : GridCell :=
  {| instructor := v; rowspan := rowspan c; hidden := hidden c |}.

Definition setRowspan (n : nat) (c : GridCell) : GridCell :=
  {| instructor := instructor c; rowspan := n; hidden := hidden c |}.

Definition setHidden (b : bool) (c : GridCell) : GridCell :=
  {| instructor := instructor c; rowspan := rowspan c; hidden := b |}.

(** The object literal of line 71. *)
Definition emptyCell : GridCell :=
  {| instructor := None; rowspan := 1; hidden := false |}.

(** An [emptyCell] after [hidden = true]. *)
Definition hiddenCell : GridCell :=
  {| instructor := None; rowspan := 1; hidden := true |}.

(** The object literal of line 81. *)
Definition holidayCell (n : nat) : GridCell :=
  {| instructor := Some "休み"; rowspan := n; hidden := false |}.

(** JavaScript truthiness of a [string | null]: [null] and the empty string
    are falsy (line 96, [if (!instructor) continue]). *)
Definition truthy (v : option string) : bool :=
  match v with
  | None => false
  | Some EmptyString => false
  | Some (String _ _) => true
  end.

(** ** Outcomes of the builder

    [TypeError] is the exception JavaScript raises when a property or an
    index of [undefined] is accessed.  [OutsideModel] marks the two things
    the list model does not represent: an array left with holes by a write
    past its end, and [undefined] read from the hour list. *)
Inductive error : Type := TypeError | OutsideModel.

Inductive result (A : Type) : Type :=
| Ok (a : A)
| Err (e : error).
Arguments Ok {A} a.
Arguments Err {A} e.

#[export] Instance result_ret : MRet result := fun A a => Ok a.
#[export] Instance result_bind : MBind result := fun A B f m =>
  match m with
  | Ok a => f a
  | Err e => Err e
  end.

Definition orThrow {A : Type} (e : error) (o : option A) : result A :=
  match o with
  | Some a => Ok a
  | None => Err e
  end.

(** [arr[i] = x]: in range it overwrites, at the end it appends, and past
    the end JavaScript would leave holes. *)
Definition arrayStore {A : Type} (arr : list A) (i : nat) (x : A) : result (list A) :=
  if decide (i < length arr) then Ok (<[i:=x]> arr)
  else if decide (i = length arr) then Ok (arr ++ [x])
  else Err OutsideModel.

(** [grid[h]] where an index or a property of the row is taken next. *)
Definition readRow (grid : Grid) (h : nat) : result (list GridCell) :=
  orThrow TypeError (grid !! h).

(** [grid[h][d]] where a property of the cell is read or assigned next. *)
Definition readCell (grid : Grid) (h d : nat) : result GridCell :=
  row ← readRow grid h; orThrow TypeError (row !! d).

(** [grid[h][d] = c]. *)
Definition writeCell (grid : Grid) (h d : nat) (c : GridCell) : result Grid :=
  row ← readRow grid h;
  row' ← arrayStore row d c;
  Ok (<[h:=row']> grid).

(** [grid[h][d].field = v], with [f] the field assignment. *)
Definition updateCell (grid : Grid) (h d : nat) (f : GridCell -> GridCell) : result Grid :=
  c ← readCell grid h d; writeCell grid h d (f c).

(** [hours[i]] passed on as a number. *)
Definition readHour (hrs : list Z) (i : nat) : result Z :=
  orThrow OutsideModel (hrs !! i).

(** A counting [for] loop over the indices [idxs], the loop body acting on
    the state; [continue] is the body returning early. *)
Fixpoint forEach {S : Type} (idxs : list nat) (body : nat -> S -> result S) (s : S)
  : result S :=
  match idxs with
  | [] => Ok s
  | i :: rest => s' ← body i s; forEach rest body s'
  end.

(** ** The grid builder *)

Section Builder.
(** The builder calls [getInstructor]; the engine is a variable here so
    that the part it plays in the result can be stated. *)
Variable engine : Z -> Z -> option string.
Variable cal : Calendar.

(** Lines 68-73. *)
Definition initGrid : result Grid :=
  forEach (seq 0 (length (hours cal)))
    (fun h_idx grid =>
       grid ← arrayStore grid h_idx [];
       forEach (seq 0 (daysInMonth cal))
         (fun d_idx grid => writeCell grid h_idx d_idx emptyCell) grid)
    [].

(** Lines 100-107: the look-ahead loop, left by [break] at the first hour
    whose instructor differs. *)
Fixpoint scanRun (day : Z) (who : option string) (d_idx : nat)
    (idxs : list nat) (grid : Grid) (span : nat) : result (Grid * nat) :=
  match idxs with
  | [] => Ok (grid, span)
  | next_h_idx :: rest =>
      hour ← readHour (hours cal) next_h_idx;
      if decide (engine day hour = who)
      then grid ← updateCell grid next_h_idx d_idx (setHidden true);
           scanRun day who d_idx rest grid (S span)
      else Ok (grid, span)
  end.

(** Lines 89-109: one iteration of the hour loop on a working day. *)
Definition fillHour (day : Z) (d_idx h_idx : nat) (grid : Grid) : result Grid :=
  c ← readCell grid h_idx d_idx;
  if hidden c then Ok grid
  else
    hour ← readHour (hours cal) h_idx;
    let who := engine day hour in
    grid ← updateCell grid h_idx d_idx (setInstructor who);
    if negb (truthy who) then Ok grid
    else
      let n := length (hours cal) in
      '(grid, span) ← scanRun day who d_idx (seq (S h_idx) (n - S h_idx)) grid 1;
      updateCell grid h_idx d_idx (setRowspan span).

(** Lines 76-110: one iteration of the day loop. *)
Definition fillDay (day : nat) (grid : Grid) : result Grid :=
  let d_idx := day - 1 in
  let n := length (hours cal) in
  if bool_decide (Z.of_nat day ∈ holidays cal)
  then
    grid ← writeCell grid 0 d_idx (holidayCell n);
    forEach (seq 1 (n - 1))
      (fun h_idx grid => updateCell grid h_idx d_idx (setHidden true)) grid
  else
    forEach (seq 0 n) (fillHour (Z.of_nat day) d_idx) grid.

(** Lines 64-112. *)
Definition scheduleGridWith : result Grid :=
  grid ← initGrid;
  forEach (seq 1 (daysInMonth cal)) fillDay grid.

End Builder.

(** The grid of the page. *)
Definition scheduleGrid (cal : Calendar) : result Grid :=
  scheduleGridWith getInstructor cal.

(** ** What one column of the grid holds

    The builder treats every day on its own.  [mergeCol] is its effect on
    the column of a working day, as a function of the engine's values for the
    hours of that day: [pending] counts the cells that the last look-ahead
    has already hidden. *)

Fixpoint runLen (who : option string) (vals : list (option string)) : nat :=
  match vals with
  | [] => 0
  | v :: rest => if decide (v = who) then S (runLen who rest) else 0
  end.

Fixpoint mergeCol (pending : nat) (vals : list (option string)) : list GridCell :=
  match vals with
  | [] => []
  | v :: rest =>
      match pending with
      | S p => hiddenCell :: mergeCol p rest
      | 0 =>
          if truthy v
          then let k := runLen v rest in mkCell v (S k) false :: mergeCol k rest
          else mkCell v 1 false :: mergeCol 0 rest
      end
  end.

(** The same column, each cell told from the value before it ([prev],
    absent above the first hour), its own value and the values after it. *)
Definition cellFor (prev : option (option string)) (v : option string)
    (rest : list (option string)) : GridCell :=
  if truthy v && bool_decide (prev = Some v) then hiddenCell
  else if truthy v then mkCell v (S (runLen v rest)) false
  else mkCell v 1 false.

Fixpoint cellsFrom (prev : option (option string)) (vals : list (option string))
  : list GridCell :=
  match vals with
  | [] => []
  | v :: rest => cellFor prev v rest :: cellsFrom (Some v) rest
  end.

(** Cells still hidden by the run of [prev] when [vals] remain. *)
Definition pendingOf (prev : option (option string)) (vals : list (option string)) : nat :=
  match prev with
  | Some v => if truthy v then runLen v vals else 0
  | None => 0
  end.

(** The column of a holiday: one cell over all hours. *)
Definition holidayColumn (n : nat) : list GridCell :=
  holidayCell n :: replicate (n - 1) hiddenCell.

(** The engine's values along the hour list of a day. *)
Definition dayValues (engine : Z -> Z -> option string) (cal : Calendar) (day : nat)
  : list (option string) :=
  engine (Z.of_nat day) <$> hours cal.

Definition dayColumn (engine : Z -> Z -> option string) (cal : Calendar) (day : nat)
  : list GridCell :=
  if bool_decide (Z.of_nat day ∈ holidays cal)
  then holidayColumn (length (hours cal))
  else mergeCol 0 (dayValues engine cal day).

(** Measures on a column. *)
Definition rowspanSum (col : list GridCell) : nat :=
  sum_list (rowspan <$> filter (fun c => hidden c = false) col).

Definition visibleCount (col : list GridCell) : nat :=
  length (filter (fun c => hidden c = false) col).

(** Hidden cells lying under the rowspan of the visible cell above them:
    [room] is how many rows the last visible cell still spans. *)
Fixpoint coveredFrom (room : nat) (col : list GridCell) : nat :=
  match col with
  | [] => 0
  | c :: rest =>
      if hidden c
      then (if decide (0 < room) then 1 else 0) + coveredFrom (room - 1) rest
      else coveredFrom (rowspan c - 1) rest
  end.

Definition coveredHidden (col : list GridCell) : nat := coveredFrom 0 col.

(** ** Reading the grid by columns *)

Definition cellAt (grid : Grid) (h d : nat) : option GridCell :=
  grid !! h ≫= fun row => row !! d.

Definition column (d : nat) (grid : Grid) : list GridCell :=
  omap (fun row : list GridCell => row !! d) grid.

(** A grid of [nh] rows, each of [nd] cells. *)
Definition Rect (nh nd : nat) (grid : Grid) : Prop :=
  length grid = nh ∧ Forall (fun row => length row = nd) grid.

(** [grid'] has shape [nh] by [nd], holds [col] in column [d] and agrees
    with [grid] on every other column. *)
Definition columnSet (nh nd d : nat) (grid grid' : Grid) (col : list GridCell) : Prop :=
  Rect nh nd grid' ∧ column d grid' = col ∧
  ∀ d', d' ≠ d → column d' grid' = column d' grid.

(** The days and hours the grid builder passes to the engine. *)
Definition inDomain (cal : Calendar) (day hour : Z) : Prop :=
  (1 ≤ day ≤ Z.of_nat (daysInMonth cal))%Z ∧ hour ∈ hours cal.

(** ** The table body, App.tsx lines 166-216

    The body is rendered from the grid: one [tr] per hour, and in it one
    [td] per day whose cell is not hidden.  A [td] is modelled by its props
    ([key], [rowSpan], [className]) and its children: the divider lines and
    the text of the inner [span].  A divider line is modelled by its key and
    by the two integers whose quotient, in percent, is its [top] offset; the
    class names of the lines, of the [span] and of the hour headers at both
    ends of a row are constants and are left out. *)

(** [instructorColors], lines 115-122, in the order of the literal. *)
Definition instructorColors : list (string * string) :=
  [ ("Gota", "bg-yellow-200 text-yellow-800 dark:bg-yellow-800 dark:text-yellow-100");
    ("Kayo", "bg-pink-200 text-pink-800 dark:bg-pink-800 dark:text-pink-100");
    ("Emi", "bg-lime-200 text-lime-800 dark:bg-lime-800 dark:text-lime-100");
    ("Sosa", "bg-blue-200 text-blue-800 dark:bg-blue-800 dark:text-blue-100");
    ("Nozomi", "bg-purple-200 text-purple-800 dark:bg-purple-800 dark:text-purple-100");
    ("Hanako", "bg-cyan-200 text-cyan-800 dark:bg-cyan-800 dark:text-cyan-100") ].

(** An own property of an object literal, by its key. *)
Fixpoint ownProperty (key : string) (entries : list (string * string)) : option string :=
  match entries with
  | [] => None
  | (k, v) :: rest => if decide (k = key) then Some v else ownProperty key rest
  end.

(** [instructorColors[name]]: [None] is [undefined].  The names that every
    object inherits ([constructor], [toString] and the like) are not
    modelled; no instructor of the grid is one of them. *)
Definition colorOf (name : string) : option string :=
  ownProperty name instructorColors.

(** A [string | undefined] inside a template literal. *)
Definition interpolate (v : option string) : string :=
  match v with
  | Some s => s
  | None => "undefined"
  end.

Record Divider : Type := mkDivider {
  div_key : nat;
  top_dividend : nat;
  top_divisor : nat
}.

Record Td : Type := mkTd {
  td_key : nat;
  td_rowSpan : nat;
  td_className : string;
  td_dividers : list Divider;
  td_text : option string
}.

Record Tr : Type := mkTr {
  tr_key : Z;
  tr_hour : Z;
  tr_cells : list (option Td)
}.

(** Lines 201-207: the lines drawn inside a merged cell, line [i] at
    [(i + 1) * 100 / rowspan] percent. *)
Definition dividers (rowspan : nat) : list Divider :=
  if 1 <? rowspan
  then (fun i => mkDivider i ((i + 1) * 100) rowspan) <$> seq 0 (rowspan - 1)
  else [].

(** [array.map] with a callback that may throw, the index passed along. *)
Fixpoint collectFrom {A B : Type} (f : nat -> A -> result B) (i : nat) (l : list A)
  : result (list B) :=
  match l with
  | [] => Ok []
  | x :: rest => y ← f i x; ys ← collectFrom f (S i) rest; Ok (y :: ys)
  end.

Section Render.
(** [new Date(year, month, day).getDay()], a built-in. *)
Variable dateGetDay : Z -> Z -> nat -> Z.
Variable cal : Calendar.

(** Lines 179-197. *)
Definition cellClass (day : nat) (cellData : GridCell) : string :=
  let dayOfWeek := dateGetDay (YEAR cal) (MONTH cal) day in
  let isWeekend := ((dayOfWeek =? 0) || (dayOfWeek =? 6))%Z in
  let isHoliday := bool_decide (Z.of_nat day ∈ holidays cal) in
  let cellClass := "border-r border-b border-gray-300 dark:border-gray-600 font-medium align-top " in
  if decide (instructor cellData = Some "休み")
  then cellClass +:+ "bg-red-50 dark:bg-red-900/30 text-red-600 dark:text-red-400 text-xs p-1 pt-2"
  else if truthy (instructor cellData)
  then cellClass +:+ (interpolate (instructor cellData ≫= colorOf) +:+ " p-2")
  else if isHoliday then cellClass +:+ "bg-red-50 dark:bg-red-900/30 "
  else if isWeekend then cellClass +:+ "bg-gray-100 dark:bg-gray-900/40 "
  else if day =? 20 then cellClass +:+ "bg-gray-100 dark:bg-gray-700/50 "
  else cellClass.

(** Lines 199-210: the [td] of a visible cell. *)
Definition tdOf (day : nat) (cellData : GridCell) : Td :=
  {| td_key := day;
     td_rowSpan := rowspan cellData;
     td_className := cellClass day cellData +:+ " relative";
     td_dividers := dividers (rowspan cellData);
     td_text := instructor cellData |}.

(** Lines 171-211: the callback of [Array.from] for one day of one row;
    [None] is the [null] returned for a hidden cell. *)
Definition bodyCell (grid : Grid) (h_idx d_idx : nat) : result (option Td) :=
  let day := d_idx + 1 in
  cellData ← readCell grid h_idx d_idx;
  if hidden cellData then Ok None
  else Ok (Some (tdOf day cellData)).

(** Lines 166-216: the rows of [tbody]. *)
Definition renderBody (grid : Grid) : result (list Tr) :=
  collectFrom
    (fun h_idx hour =>
       cells ← collectFrom (fun _ d_idx => bodyCell grid h_idx d_idx) 0
                 (seq 0 (daysInMonth cal));
       Ok (mkTr hour hour cells))
    0 (hours cal).

End Render.

(** What [bodyCell] returns for a cell that is there. *)
Definition tdIfVisible (dateGetDay : Z -> Z -> nat -> Z) (cal : Calendar)
    (day : nat) (cellData : GridCell) : option Td :=
  if hidden cellData then None else Some (tdOf dateGetDay cal day cellData).

(** [getDay] of the days of November 2025, whose 1st is a Saturday. *)
Definition november2025GetDay (year month : Z) (day : nat) : Z :=
  Z.of_nat ((day + 5) mod 7).

(** The grid of the page and the rows rendered from it. *)
Definition pageGrid : Grid :=
  match scheduleGrid calendarInfo with
  | Ok grid => grid
  | Err _ => []
  end.

Definition pageRows : list Tr :=
  match renderBody november2025GetDay calendarInfo pageGrid with
  | Ok rows => rows
  | Err _ => []
  end.

(** *** Reading the rendered body by columns *)

(** What the rows hold for day index [d], from the first hour down. *)
Definition renderedColumn (d : nat) (rows : list Tr) : list (option Td) :=
  omap (fun row => tr_cells row !! d) rows.

(** The spans of a rendered column fit: a [td] starts where the [td] above
    it ends, and below it exactly [rowSpan - 1] rows have no [td]. *)
Fixpoint spansFit (room : nat) (col : list (option Td)) : bool :=
  match col with
  | [] => room =? 0
  | None :: rest => (0 <? room) && spansFit (room - 1) rest
  | Some td :: rest =>
      (room =? 0) && (0 <? td_rowSpan td) && spansFit (td_rowSpan td - 1) rest
  end.

(** The text a reader sees beside each hour: that of the [td] spanning the
    row. *)
Fixpoint shownTexts (cur : option string) (col : list (option Td)) : list (option string) :=
  match col with
  | [] => []
  | None :: rest => cur :: shownTexts cur rest
  | Some td :: rest => td_text td :: shownTexts (td_text td) rest
  end.

(** Rows of a column that start a [td] or carry one of its divider lines. *)
Definition markedRows (col : list (option Td)) : nat :=
  sum_list ((fun td => 1 + length (td_dividers td)) <$> omap id col).

(** *** Lemmas on columns *)

Lemma runLen_le who vals : runLen who vals ≤ length vals.
Proof.
  induction vals as [|v rest IH]; simpl; [lia|].
  case_decide; lia.
Qed.

Lemma runLen_exact who vals k :
  (∀ j, j < k → vals !! j = Some who) →
  vals !! k ≠ Some who →
  runLen who vals = k.
Proof.
  revert vals. induction k as [|k IH]; intros vals Hin Hout.
  - destruct vals as [|v rest]; simpl; [done|].
    case_decide; [|done]. subst v. by destruct Hout.
  - destruct vals as [|v rest].
    { specialize (Hin 0). simpl in Hin. discriminate Hin. lia. }
    simpl. pose proof (Hin 0 ltac:(lia)) as H0. simpl in H0.
    injection H0 as ->. rewrite decide_True by done. f_equal.
    apply IH; [|done].
    intros j Hj. apply (Hin (S j)). lia.
Qed.

Lemma mergeCol_length p vals : length (mergeCol p vals) = length vals.
Proof.
  revert p. induction vals as [|v rest IH]; intros p; simpl; [done|].
  destruct p; [destruct (truthy v)|]; simpl; by rewrite IH.
Qed.

Lemma mergeCol_cellsFrom prev vals :
  mergeCol (pendingOf prev vals) vals = cellsFrom prev vals.
Proof.
  revert prev. induction vals as [|v rest IH]; intros prev; [done|].
  simpl cellsFrom. rewrite <- (IH (Some v)). unfold cellFor.
  destruct (decide (prev = Some v)) as [->|Hne].
  - rewrite bool_decide_eq_true_2 by done. simpl.
    destruct (truthy v) eqn:Hv; simpl.
    + by rewrite decide_True.
    + done.
  - rewrite bool_decide_eq_false_2, andb_false_r by done.
    assert (pendingOf prev (v :: rest) = 0) as ->.
    { destruct prev as [w|]; simpl; [|done].
      destruct (truthy w); [|done].
      rewrite decide_False; [done|]. intros ->. by apply Hne. }
    simpl. destruct (truthy v) eqn:Hv; done.
Qed.

Lemma mergeCol_0_cellsFrom vals : mergeCol 0 vals = cellsFrom None vals.
Proof. apply (mergeCol_cellsFrom None). Qed.

Lemma cellsFrom_lookup prev vals i :
  cellsFrom prev vals !! i =
  (fun v => cellFor (match i with 0 => prev | S j => vals !! j end) v
              (drop (S i) vals)) <$> vals !! i.
Proof.
  revert prev i. induction vals as [|v rest IH]; intros prev i; [done|].
  destruct i as [|i]; simpl; [by rewrite drop_0|].
  rewrite IH. destruct i; done.
Qed.

Lemma rowspanSum_cons c col :
  rowspanSum (c :: col) = (if hidden c then 0 else rowspan c) + rowspanSum col.
Proof.
  unfold rowspanSum. rewrite filter_cons.
  destruct (hidden c); case_decide; done.
Qed.

Lemma visibleCount_cons c col :
  visibleCount (c :: col) = (if hidden c then 0 else 1) + visibleCount col.
Proof.
  unfold visibleCount. rewrite filter_cons.
  destruct (hidden c); case_decide; done.
Qed.

Lemma rowspanSum_hidden n : rowspanSum (replicate n hiddenCell) = 0.
Proof. induction n as [|n IH]; [done|]. simpl. by rewrite rowspanSum_cons. Qed.

Lemma visibleCount_hidden n : visibleCount (replicate n hiddenCell) = 0.
Proof. induction n as [|n IH]; [done|]. simpl. by rewrite visibleCount_cons. Qed.

Lemma coveredFrom_hidden room n :
  n ≤ room → coveredFrom room (replicate n hiddenCell) = n.
Proof.
  revert room. induction n as [|n IH]; intros room Hle; [done|].
  simpl. rewrite decide_True by lia. rewrite IH by lia. done.
Qed.

Lemma mergeCol_rowspanSum p vals :
  p ≤ length vals → rowspanSum (mergeCol p vals) + p = length vals.
Proof.
  revert p. induction vals as [|v rest IH]; intros p Hp; simpl in *; [lia|].
  destruct p as [|p].
  - destruct (truthy v).
    + rewrite rowspanSum_cons. simpl.
      pose proof (runLen_le v rest) as Hk.
      pose proof (IH _ Hk). lia.
    + rewrite rowspanSum_cons. simpl.
      pose proof (IH 0 ltac:(lia)). lia.
  - rewrite rowspanSum_cons. simpl.
    pose proof (IH p ltac:(lia)). lia.
Qed.

Lemma mergeCol_covered p vals :
  visibleCount (mergeCol p vals) + coveredFrom p (mergeCol p vals) = length vals.
Proof.
  revert p. induction vals as [|v rest IH]; intros p; simpl; [done|].
  destruct p as [|p].
  - destruct (truthy v); rewrite visibleCount_cons; simpl.
    + rewrite Nat.sub_0_r. pose proof (IH (runLen v rest)). lia.
    + pose proof (IH 0). lia.
  - rewrite visibleCount_cons. simpl.
    rewrite Nat.sub_0_r. pose proof (IH p). lia.
Qed.

Lemma holidayColumn_length n : 0 < n → length (holidayColumn n) = n.
Proof. intros Hn. unfold holidayColumn. simpl. rewrite length_replicate. lia. Qed.

Lemma holidayColumn_rowspanSum n : rowspanSum (holidayColumn n) = n.
Proof.
  unfold holidayColumn. rewrite rowspanSum_cons, rowspanSum_hidden. simpl. lia.
Qed.

Lemma holidayColumn_covered n :
  0 < n →
  visibleCount (holidayColumn n) + coveredHidden (holidayColumn n) = n.
Proof.
  intros Hn. unfold coveredHidden, holidayColumn.
  rewrite visibleCount_cons, visibleCount_hidden. simpl.
  rewrite coveredFrom_hidden by lia. lia.
Qed.

(** ** Lemmas on reading the grid by columns *)

Lemma column_cons d (row : list GridCell) (rows : Grid) :
  column d (row :: rows) =
  match row !! d with
  | Some c => c :: column d rows
  | None => column d rows
  end.
Proof. reflexivity. Qed.

Lemma column_lookup nd d grid h :
  Forall (fun row => length row = nd) grid → d < nd →
  column d grid !! h = cellAt grid h d.
Proof.
  intros Hrows Hd. revert h.
  induction Hrows as [|row rows Hrow _ IH]; intros h; [done|].
  rewrite column_cons.
  destruct (lookup_lt_is_Some_2 row d) as [c Hc]; [lia|].
  rewrite Hc. destruct h as [|h]; [by unfold cellAt; simpl|]. apply IH.
Qed.

Lemma column_length nh nd d grid :
  Rect nh nd grid → d < nd → length (column d grid) = nh.
Proof.
  intros [Hlen Hrows] Hd. subst nh.
  induction Hrows as [|row rows Hrow _ IH]; [done|].
  rewrite column_cons.
  destruct (lookup_lt_is_Some_2 row d) as [c Hc]; [lia|].
  rewrite Hc. simpl. by rewrite IH.
Qed.

Lemma column_insert_other (d' : nat) (grid : Grid) h row row' :
  grid !! h = Some row → row' !! d' = row !! d' →
  column d' (<[h:=row']> grid) = column d' grid.
Proof.
  revert h. induction grid as [|r rows IH]; intros h Hh Heq; [done|].
  destruct h as [|h]; simpl in *.
  - injection Hh as ->. by rewrite Heq.
  - pose proof (IH h Hh Heq) as E.
    destruct (r !! d'); [f_equal|]; exact E.
Qed.

Lemma readCell_column nh nd grid h d c :
  Rect nh nd grid → d < nd →
  column d grid !! h = Some c → readCell grid h d = Ok c.
Proof.
  intros [_ Hrows] Hd Hc. rewrite (column_lookup nd) in Hc by done.
  unfold cellAt in Hc. unfold readCell, readRow.
  destruct (grid !! h) as [row|]; simpl in *; [|done]. by rewrite Hc.
Qed.

Lemma writeCell_column nh nd grid h d c :
  Rect nh nd grid → h < nh → d < nd →
  ∃ grid', writeCell grid h d c = Ok grid' ∧
           columnSet nh nd d grid grid' (<[h:=c]> (column d grid)).
Proof.
  intros [Hlen Hrows] Hh Hd.
  destruct (lookup_lt_is_Some_2 grid h) as [row Hrow]; [lia|].
  assert (length row = nd) as Hrowlen.
  { by eapply (Forall_lookup_1 _ _ _ _ Hrows). }
  exists (<[h:=<[d:=c]> row]> grid).
  assert (Forall (fun r => length r = nd) (<[h:=<[d:=c]> row]> grid)) as Hrows'.
  { apply Forall_insert; [done|]. by rewrite length_insert. }
  split; [|split; [|split]].
  - unfold writeCell, readRow, arrayStore. rewrite Hrow. simpl.
    rewrite decide_True by lia. done.
  - split; [by rewrite length_insert|done].
  - apply list_eq. intros i.
    rewrite (column_lookup nd) by done.
    unfold cellAt. destruct (decide (i = h)) as [->|Hne].
    + rewrite list_lookup_insert_eq by lia. simpl.
      rewrite !list_lookup_insert_eq; [done| |lia].
      rewrite (column_length (length grid) nd); [lia|done|done].
    + rewrite !list_lookup_insert_ne by done.
      by rewrite (column_lookup nd).
  - intros d' Hd'. apply (column_insert_other d' grid h row); [done|].
    by rewrite list_lookup_insert_ne.
Qed.

Lemma updateCell_column nh nd grid h d f :
  Rect nh nd grid → h < nh → d < nd →
  ∃ grid', updateCell grid h d f = Ok grid' ∧
           columnSet nh nd d grid grid' (alter f h (column d grid)).
Proof.
  intros Hrect Hh Hd.
  destruct (lookup_lt_is_Some_2 (column d grid) h) as [c Hc].
  { by rewrite (column_length nh nd). }
  destruct (writeCell_column nh nd grid h d (f c)) as (grid' & Hw & Hset); try done.
  exists grid'. split.
  - unfold updateCell. by rewrite (readCell_column nh nd grid h d c).
  - destruct Hset as (? & Hcol & ?). split; [done|split; [|done]].
    rewrite Hcol. apply list_eq. intros i.
    rewrite list_lookup_alter, list_lookup_insert.
    rewrite (column_length nh nd) by done.
    destruct (decide (h = i)) as [->|].
    + rewrite Hc. simpl. by rewrite decide_True.
    + rewrite decide_False; [done|]. intros [? _]. done.
Qed.

Lemma columnSet_trans nh nd d g1 g2 g3 col2 col3 :
  columnSet nh nd d g1 g2 col2 → columnSet nh nd d g2 g3 col3 →
  columnSet nh nd d g1 g3 col3.
Proof.
  intros (_ & _ & Hf1) (Hr & Hc & Hf2). split; [done|split; [done|]].
  intros d' Hd'. by rewrite Hf2, Hf1.
Qed.

Lemma columnSet_refl nh nd d grid :
  Rect nh nd grid → columnSet nh nd d grid grid (column d grid).
Proof. intros Hr. split; [done|split; done]. Qed.

(** A field assignment on the cell just below the finished part of a
    column. *)
Lemma alter_below {A : Type} (f : A → A) (done : list A) x rest s :
  length done = s →
  alter f s (done ++ x :: rest) = (done ++ [f x]) ++ rest.
Proof.
  intros <-. rewrite <- (Nat.add_0_r (length done)), alter_app_r.
  simpl. by rewrite <- app_assoc.
Qed.

(** ** The loops of the builder, column by column *)

Section BuilderColumns.
Variable engine : Z -> Z -> option string.
Variable cal : Calendar.

Let nh := length (hours cal).
Let nd := daysInMonth cal.

(** Lines 82-84: the rest of a holiday column is hidden. *)
Lemma hideRest_column d m : ∀ s pre grid,
  Rect nh nd grid → d < nd → length pre = s → s + m = nh →
  column d grid = pre ++ replicate m emptyCell →
  ∃ grid',
    forEach (seq s m)
      (fun h_idx grid => updateCell grid h_idx d (setHidden true)) grid = Ok grid' ∧
    columnSet nh nd d grid grid' (pre ++ replicate m hiddenCell).
Proof.
  induction m as [|m IH]; intros s pre grid Hrect Hd Hpre Hsum Hcol.
  - exists grid. split; [done|]. simpl in *. rewrite <- Hcol.
    by apply columnSet_refl.
  - destruct (updateCell_column nh nd grid s d (setHidden true))
      as (g1 & Hupd & Hset1); [done|lia|done|].
    assert (alter (setHidden true) s (column d grid)
            = (pre ++ [hiddenCell]) ++ replicate m emptyCell) as Hcol1.
    { rewrite Hcol. simpl. by rewrite alter_below. }
    rewrite Hcol1 in Hset1.
    destruct (IH (S s) (pre ++ [hiddenCell]) g1) as (g2 & Hloop & Hset2).
    { apply Hset1. } { done. }
    { rewrite length_app. simpl. lia. } { lia. } { apply Hset1. }
    exists g2. split.
    + simpl. rewrite Hupd. exact Hloop.
    + rewrite <- app_assoc in Hset2. simpl in Hset2.
      by eapply columnSet_trans.
Qed.

(** Lines 100-107: the look-ahead hides the cells of the run and counts
    them. *)
Lemma scanRun_column day who d m : ∀ s pre grid span,
  Rect nh nd grid → d < nd → length pre = s → s + m = nh →
  column d grid = pre ++ replicate m emptyCell →
  let k := runLen who (drop s (engine day <$> hours cal)) in
  ∃ grid',
    scanRun engine cal day who d (seq s m) grid span = Ok (grid', span + k) ∧
    k ≤ m ∧
    columnSet nh nd d grid grid'
      (pre ++ replicate k hiddenCell ++ replicate (m - k) emptyCell).
Proof.
  induction m as [|m IH]; intros s pre grid span Hrect Hd Hpre Hsum Hcol.
  - rewrite drop_ge by (rewrite length_fmap; unfold nh in Hsum; lia).
    simpl. exists grid. split; [by rewrite Nat.add_0_r|split; [done|]].
    simpl in Hcol. rewrite <- Hcol. by apply columnSet_refl.
  - destruct (lookup_lt_is_Some_2 (hours cal) s) as [hr Hhr].
    { unfold nh in Hsum. lia. }
    rewrite (drop_S _ (engine day hr)) by (by rewrite list_lookup_fmap, Hhr).
    simpl. unfold readHour. rewrite Hhr. simpl.
    destruct (decide (engine day hr = who)) as [Heq|Hne].
    + destruct (updateCell_column nh nd grid s d (setHidden true))
        as (g1 & Hupd & Hset1); [done|lia|done|].
      assert (alter (setHidden true) s (column d grid)
              = (pre ++ [hiddenCell]) ++ replicate m emptyCell) as Hcol1.
      { rewrite Hcol. simpl. by rewrite alter_below. }
      rewrite Hcol1 in Hset1.
      destruct (IH (S s) (pre ++ [hiddenCell]) g1 (S span))
        as (g2 & Hscan & Hle & Hset2).
      { apply Hset1. } { done. }
      { rewrite length_app. simpl. lia. } { lia. } { apply Hset1. }
      exists g2. split; [|split].
      * rewrite Hupd. simpl. rewrite Hscan. f_equal. f_equal. lia.
      * lia.
      * rewrite <- app_assoc in Hset2. simpl in Hset2.
        by eapply columnSet_trans.
    + exists grid. split; [by rewrite Nat.add_0_r|split; [lia|]].
      simpl in Hcol |- *. rewrite <- Hcol. by apply columnSet_refl.
Qed.

(** Lines 89-109: one iteration of the hour loop of a working day, at
    hour index [s], with [p] cells already hidden by the last look-ahead.
    It settles the cell at [s] and leaves [p'] cells hidden after it. *)
Lemma fillHour_column day d s done p q grid hr :
  Rect nh nd grid → d < nd → length done = s → s + (p + q) = nh → 0 < p + q →
  hours cal !! s = Some hr →
  column d grid = done ++ replicate p hiddenCell ++ replicate q emptyCell →
  let rest := drop (S s) (engine day <$> hours cal) in
  ∃ grid' c p',
    fillHour engine cal day d s grid = Ok grid' ∧
    mergeCol p (engine day hr :: rest) = c :: mergeCol p' rest ∧
    p' ≤ p + q - 1 ∧
    columnSet nh nd d grid grid'
      ((done ++ [c]) ++ replicate p' hiddenCell
                     ++ replicate (p + q - 1 - p') emptyCell).
Proof.
  intros Hrect Hd Hdone Hsum Hpos Hhr Hcol rest.
  destruct p as [|p].
  - (* the cell is visible: ask the engine *)
    destruct q as [|q]; [lia|].
    assert (readCell grid s d = Ok emptyCell) as Hread.
    { apply (readCell_column nh nd); [done..|].
      rewrite Hcol, <- Hdone. simpl. by rewrite list_lookup_middle. }
    destruct (updateCell_column nh nd grid s d (setInstructor (engine day hr)))
      as (g1 & Hupd & Hset1); [done|lia|done|].
    assert (alter (setInstructor (engine day hr)) s (column d grid)
            = (done ++ [mkCell (engine day hr) 1 false]) ++ replicate q emptyCell)
      as Hcol1.
    { rewrite Hcol. simpl. by rewrite alter_below. }
    rewrite Hcol1 in Hset1.
    assert (length (done ++ [mkCell (engine day hr) 1 false]) = S s) as Hlen1.
    { rewrite length_app. simpl. lia. }
    unfold fillHour. rewrite Hread. simpl.
    unfold readHour. rewrite Hhr. simpl. rewrite Hupd. simpl.
    destruct (truthy (engine day hr)) eqn:Hwho; simpl.
    + destruct (scanRun_column day (engine day hr) d q (S s)
                  (done ++ [mkCell (engine day hr) 1 false]) g1 1)
        as (g2 & Hscan & Hle & Hset2);
        [apply Hset1|done|done|lia|apply Hset1|].
      fold rest in Hscan, Hle, Hset2.
      set (k := runLen (engine day hr) rest) in *.
      replace (length (hours cal) - S s) with q by (unfold nh in Hsum; lia).
      rewrite Hscan. simpl.
      destruct (updateCell_column nh nd g2 s d (setRowspan (1 + k)))
        as (g3 & Hupd3 & Hset3); [apply Hset2|lia|done|].
      assert (alter (setRowspan (1 + k)) s (column d g2)
              = (done ++ [mkCell (engine day hr) (S k) false])
                ++ replicate k hiddenCell ++ replicate (q - k) emptyCell)
        as Hcol3.
      { destruct Hset2 as (_ & -> & _).
        rewrite <- app_assoc. simpl. by rewrite alter_below. }
      rewrite Hcol3 in Hset3.
      exists g3, (mkCell (engine day hr) (S k) false), k.
      split; [exact Hupd3|split; [done|split; [lia|]]].
      replace (0 + S q - 1 - k) with (q - k) by lia.
      replace (q - 0 - k) with (q - k) by lia.
      eapply columnSet_trans; [|exact Hset3].
      eapply columnSet_trans; [exact Hset1|exact Hset2].
    + exists g1, (mkCell (engine day hr) 1 false), 0.
      split; [done|split; [done|split; [lia|]]].
      simpl. by rewrite !Nat.sub_0_r.
  - (* the cell was hidden by the look-ahead of an earlier hour *)
    assert (readCell grid s d = Ok hiddenCell) as Hread.
    { apply (readCell_column nh nd); [done..|].
      rewrite Hcol, <- Hdone. simpl. by rewrite list_lookup_middle. }
    exists grid, hiddenCell, p.
    split; [unfold fillHour; by rewrite Hread|split; [done|split; [lia|]]].
    replace (S p + q - 1 - p) with q by lia.
    rewrite <- app_assoc. simpl in Hcol |- *. rewrite <- Hcol.
    by apply columnSet_refl.
Qed.

(** Lines 89-109: the whole hour loop, from hour index [s] on. *)
Lemma fillHours_column day d m : ∀ s done p q grid,
  Rect nh nd grid → d < nd → length done = s → s + m = nh → p + q = m →
  column d grid = done ++ replicate p hiddenCell ++ replicate q emptyCell →
  ∃ grid',
    forEach (seq s m) (fillHour engine cal day d) grid = Ok grid' ∧
    columnSet nh nd d grid grid'
      (done ++ mergeCol p (drop s (engine day <$> hours cal))).
Proof.
  induction m as [|m IH]; intros s done p q grid Hrect Hd Hdone Hsum Hpq Hcol.
  - rewrite drop_ge by (rewrite length_fmap; unfold nh in Hsum; lia).
    assert (p = 0) as -> by lia. assert (q = 0) as -> by lia.
    exists grid. split; [done|]. simpl in Hcol |- *. rewrite <- Hcol.
    by apply columnSet_refl.
  - destruct (lookup_lt_is_Some_2 (hours cal) s) as [hr Hhr].
    { unfold nh in Hsum. lia. }
    rewrite (drop_S _ (engine day hr)) by (by rewrite list_lookup_fmap, Hhr).
    destruct (fillHour_column day d s done p q grid hr)
      as (g1 & c & p' & Hstep & Hmerge & Hle & Hset1); [done|done|done|lia|lia|done|done|].
    destruct (IH (S s) (done ++ [c]) p' (p + q - 1 - p') g1)
      as (g2 & Hloop & Hset2); [apply Hset1|done| |lia|lia|apply Hset1|].
    { rewrite length_app. simpl. lia. }
    exists g2. split.
    + cbn [seq forEach]. rewrite Hstep. exact Hloop.
    + rewrite Hmerge. rewrite <- app_assoc in Hset2. simpl in Hset2.
      by eapply columnSet_trans.
Qed.

(** Lines 76-110: one day.  With no hour at all, line 81 would index
    [undefined]; hence [0 < nh]. *)
Lemma fillDay_column day grid :
  Rect nh nd grid → 0 < nh → 1 ≤ day ≤ nd →
  column (day - 1) grid = replicate nh emptyCell →
  ∃ grid',
    fillDay engine cal day grid = Ok grid' ∧
    columnSet nh nd (day - 1) grid grid' (dayColumn engine cal day).
Proof.
  intros Hrect Hnh Hday Hcol. unfold fillDay, dayColumn.
  destruct (bool_decide (Z.of_nat day ∈ holidays cal)).
  - destruct (writeCell_column nh nd grid 0 (day - 1) (holidayCell nh))
      as (g1 & Hw & Hset1); [done|done|lia|].
    assert (<[0:=holidayCell nh]> (column (day - 1) grid)
            = [holidayCell nh] ++ replicate (nh - 1) emptyCell) as Hcol1.
    { rewrite Hcol. destruct nh; [lia|]. simpl. by rewrite Nat.sub_0_r. }
    rewrite Hcol1 in Hset1.
    destruct (hideRest_column (day - 1) (nh - 1) 1 [holidayCell nh] g1)
      as (g2 & Hloop & Hset2); [apply Hset1|lia|done|lia|apply Hset1|].
    exists g2. split.
    + fold nh. rewrite Hw. exact Hloop.
    + by eapply columnSet_trans.
  - destruct (fillHours_column (Z.of_nat day) (day - 1) nh 0 [] 0 nh grid)
      as (g1 & Hloop & Hset1); [done|lia|done|done|done|done|].
    exists g1. split; [exact Hloop|]. exact Hset1.
Qed.

(** Lines 68-73: the cells of one fresh row, then all rows. *)
Lemma initRow_cells h m : ∀ s (pre : Grid),
  length pre = h →
  forEach (seq s m) (fun d_idx grid => writeCell grid h d_idx emptyCell)
    (pre ++ [replicate s emptyCell])
  = Ok (pre ++ [replicate (s + m) emptyCell]).
Proof.
  induction m as [|m IH]; intros s pre Hpre.
  - by rewrite Nat.add_0_r.
  - assert (writeCell (pre ++ [replicate s emptyCell]) h s emptyCell
            = Ok (pre ++ [replicate (S s) emptyCell])) as Hstep.
    { unfold writeCell, readRow, arrayStore.
      rewrite list_lookup_middle by done. simpl.
      rewrite length_replicate, decide_False, decide_True by lia. simpl.
      rewrite insert_app_r_alt by lia. rewrite Hpre, Nat.sub_diag. simpl.
      by rewrite <- replicate_S_end. }
    cbn [seq forEach]. rewrite Hstep. simpl.
    rewrite (IH (S s)) by done. by rewrite Nat.add_succ_r.
Qed.

Lemma initGrid_rows m : ∀ s,
  forEach (seq s m)
    (fun h_idx grid =>
       grid ← arrayStore grid h_idx [];
       forEach (seq 0 nd)
         (fun d_idx grid => writeCell grid h_idx d_idx emptyCell) grid)
    (replicate s (replicate nd emptyCell))
  = Ok (replicate (s + m) (replicate nd emptyCell)).
Proof.
  induction m as [|m IH]; intros s.
  - by rewrite Nat.add_0_r.
  - assert (arrayStore (replicate s (replicate nd emptyCell)) s []
            = Ok (replicate s (replicate nd emptyCell) ++ [replicate 0 emptyCell]))
      as Hrow.
    { unfold arrayStore.
      by rewrite length_replicate, decide_False, decide_True by lia. }
    cbn [seq forEach]. rewrite Hrow. simpl.
    rewrite (initRow_cells s nd 0) by apply length_replicate. simpl.
    rewrite <- replicate_S_end, (IH (S s)).
    by rewrite Nat.add_succ_r.
Qed.

Lemma initGrid_spec : initGrid cal = Ok (replicate nh (replicate nd emptyCell)).
Proof. apply (initGrid_rows nh 0). Qed.

Lemma Rect_replicate : Rect nh nd (replicate nh (replicate nd emptyCell)).
Proof.
  split; [apply length_replicate|].
  apply Forall_replicate, length_replicate.
Qed.

Lemma column_replicate d n :
  d < nd → column d (replicate n (replicate nd emptyCell)) = replicate n emptyCell.
Proof.
  intros Hd. induction n as [|n IH]; [done|].
  rewrite !replicate_S, column_cons, lookup_replicate_2 by done.
  by rewrite IH.
Qed.

(** Lines 76-110: the day loop, from day [s] on. *)
Lemma fillDays_columns m : ∀ s grid,
  0 < nh → Rect nh nd grid → 1 ≤ s → s + m = S nd →
  (∀ d, d < s - 1 → column d grid = dayColumn engine cal (S d)) →
  (∀ d, s - 1 ≤ d < nd → column d grid = replicate nh emptyCell) →
  ∃ grid',
    forEach (seq s m) (fillDay engine cal) grid = Ok grid' ∧
    Rect nh nd grid' ∧
    ∀ d, d < nd → column d grid' = dayColumn engine cal (S d).
Proof.
  induction m as [|m IH]; intros s grid Hnh Hrect Hs Hsum Hdone Htodo.
  - exists grid. split; [done|split; [done|]].
    intros d Hd. apply Hdone. lia.
  - destruct (fillDay_column s grid) as (g1 & Hday & Hr1 & Hc1 & Hf1);
      [done|done|lia|apply Htodo; lia|].
    destruct (IH (S s) g1) as (g2 & Hloop & Hr2 & Hc2); [done|done|lia|lia| | |].
    + intros d Hd. destruct (decide (d = s - 1)) as [->|Hne].
      * rewrite Hc1. f_equal. lia.
      * rewrite Hf1 by done. apply Hdone. lia.
    + intros d Hd. rewrite Hf1 by lia. apply Htodo. lia.
    + exists g2. split; [|done]. cbn [seq forEach]. rewrite Hday. exact Hloop.
Qed.

(** With no hour the grid has no row: a working day does nothing and a
    holiday throws at line 81. *)
Lemma fillDays_no_hours days :
  hours cal = [] →
  forEach days (fillDay engine cal) [] = Ok [] ∨
  forEach days (fillDay engine cal) [] = Err TypeError.
Proof.
  intros Hno. induction days as [|day days IH]; [by left|].
  assert (fillDay engine cal day [] =
          if bool_decide (Z.of_nat day ∈ holidays cal)
          then Err TypeError else Ok []) as Hstep.
  { unfold fillDay. rewrite Hno. by case_bool_decide. }
  cbn [forEach]. rewrite Hstep.
  case_bool_decide; simpl; [by right|exact IH].
Qed.

End BuilderColumns.

(** ** The grid as a whole *)

(** Whenever there is at least one hour the builder returns a grid of
    [hours.length] rows and [daysInMonth] columns whose column for day
    [d + 1] is [dayColumn]. *)
Lemma scheduleGridWith_columns engine cal :
  hours cal ≠ [] →
  ∃ grid,
    scheduleGridWith engine cal = Ok grid ∧
    Rect (length (hours cal)) (daysInMonth cal) grid ∧
    ∀ d, d < daysInMonth cal → column d grid = dayColumn engine cal (S d).
Proof.
  intros Hne.
  assert (0 < length (hours cal)) as Hnh.
  { destruct (hours cal); [done|simpl; lia]. }
  destruct (fillDays_columns engine cal (daysInMonth cal) 1
              (replicate (length (hours cal)) (replicate (daysInMonth cal) emptyCell)))
    as (grid & Hloop & Hrect & Hcols);
    [done|apply Rect_replicate|lia|lia| | |].
  - intros d Hd. lia.
  - intros d Hd. apply column_replicate. lia.
  - exists grid. split; [|done].
    unfold scheduleGridWith. rewrite initGrid_spec. exact Hloop.
Qed.

(** The two outcomes the list model leaves out never arise: the builder
    writes no array past its end and reads no hour past the list. *)
Lemma scheduleGridWith_inside_model engine cal :
  scheduleGridWith engine cal ≠ Err OutsideModel.
Proof.
  destruct (decide (hours cal = [])) as [Hno|Hne].
  - unfold scheduleGridWith. rewrite initGrid_spec, Hno. simpl.
    destruct (fillDays_no_hours engine cal (seq 1 (daysInMonth cal)) Hno)
      as [-> | ->]; done.
  - destruct (scheduleGridWith_columns engine cal Hne) as (grid & -> & _). done.
Qed.

(** ** Properties of the rule engine *)

Section RuleEngineFacts.
Open Scope Z_scope.

Lemma getInstructor_assignInstructor day hour :
  getInstructor day hour = assignInstructor day hour.
Proof.
  unfold getInstructor, assignInstructor, precedence, dayIn, within.
  cbn [firstMatch applies assigns existsb].
  rewrite !Z.geb_leb, !orb_false_r, !orb_assoc. reflexivity.
Qed.

(** Every instructor the engine names is a non-empty string, so the test
    of line 96 only skips [null]. *)
Lemma getInstructor_truthy day hour who :
  getInstructor day hour = Some who → truthy (Some who) = true.
Proof.
  unfold getInstructor. intros H.
  repeat case_match; simplify_eq; reflexivity.
Qed.

(** On a day that no rule names only the two default rules are left. *)
Lemma getInstructor_ordinary_day day hour :
  day ∉ specialDays →
  getInstructor day hour =
    if within 10 16 hour then Some "Kayo"
    else if within 17 20 hour then Some "Gota"
    else None.
Proof.
  unfold specialDays. rewrite !not_elem_of_cons. intros Hday.
  destruct Hday as (? & ? & ? & ? & ? & ? & ? & ? & ? & _).
  unfold getInstructor, within.
  repeat match goal with
         | H : day ≠ ?n |- _ => apply Z.eqb_neq in H; rewrite H; clear H
         end.
  rewrite !Z.geb_leb. simpl.
  repeat match goal with
         | |- context [Z.leb ?a ?b] => destruct (Z.leb_spec a b)
         end; simpl; first [reflexivity | lia].
Qed.

(** The two days whose rule closes the whole day. *)
Lemma getInstructor_day13 hour :
  getInstructor 13 hour = if within 10 20 hour then Some "Gota" else None.
Proof. unfold getInstructor, within. rewrite !Z.geb_leb. reflexivity. Qed.

Lemma getInstructor_day20 hour :
  getInstructor 20 hour = if within 11 13 hour then Some "Emi" else None.
Proof. unfold getInstructor, within. rewrite !Z.geb_leb. reflexivity. Qed.

Lemma within_spec lo hi x : within lo hi x = true ↔ lo ≤ x ≤ hi.
Proof. unfold within. rewrite andb_true_iff, !Z.leb_le. done. Qed.

End RuleEngineFacts.

(** ** Columns of the built grid *)

Lemma cellAt_column nh nd grid h d :
  Rect nh nd grid → d < nd → cellAt grid h d = column d grid !! h.
Proof. intros [_ Hrows] Hd. symmetry. by apply (column_lookup nd). Qed.

(** The column of a day, holiday or not, in the grid that is built. *)
Lemma scheduleGridWith_day engine cal day :
  hours cal ≠ [] → 1 ≤ day ≤ daysInMonth cal →
  ∃ grid,
    scheduleGridWith engine cal = Ok grid ∧
    Rect (length (hours cal)) (daysInMonth cal) grid ∧
    column (day - 1) grid = dayColumn engine cal day.
Proof.
  intros Hne Hday.
  destruct (scheduleGridWith_columns engine cal Hne) as (grid & Hok & Hrect & Hcols).
  exists grid. split; [done|split; [done|]].
  rewrite Hcols by lia. f_equal. lia.
Qed.

Lemma dayValues_nonempty engine cal day i v :
  dayValues engine cal day !! i = Some v → hours cal ≠ [].
Proof. unfold dayValues. intros Hv Hno. by rewrite Hno in Hv. Qed.

Lemma dayColumn_working engine cal day :
  Z.of_nat day ∉ holidays cal →
  dayColumn engine cal day = cellsFrom None (dayValues engine cal day).
Proof.
  intros Hwork. unfold dayColumn.
  rewrite bool_decide_eq_false_2 by done. apply mergeCol_0_cellsFrom.
Qed.

Lemma dayColumn_holiday engine cal day :
  Z.of_nat day ∈ holidays cal →
  dayColumn engine cal day = holidayColumn (length (hours cal)).
Proof. intros Hhol. unfold dayColumn. by rewrite bool_decide_eq_true_2. Qed.

Lemma dayColumn_rowspanSum engine cal day :
  hours cal ≠ [] →
  rowspanSum (dayColumn engine cal day) = length (hours cal).
Proof.
  intros Hne. unfold dayColumn. case_bool_decide.
  - apply holidayColumn_rowspanSum.
  - pose proof (mergeCol_rowspanSum 0 (dayValues engine cal day)) as Hsum.
    unfold dayValues in *. rewrite length_fmap in Hsum. lia.
Qed.

Lemma dayColumn_covered engine cal day :
  hours cal ≠ [] →
  visibleCount (dayColumn engine cal day) + coveredHidden (dayColumn engine cal day)
  = length (hours cal).
Proof.
  intros Hne. unfold dayColumn. case_bool_decide.
  - apply holidayColumn_covered. destruct (hours cal); [done|simpl; lia].
  - pose proof (mergeCol_covered 0 (dayValues engine cal day)) as Hsum.
    unfold dayValues in *. rewrite length_fmap in Hsum. exact Hsum.
Qed.

(** A maximal run of one instructor in a working column: its first cell
    owns the run, the others are hidden. *)
Lemma cellsFrom_run vals a len who :
  truthy (Some who) = true → 0 < len →
  (∀ i, a ≤ i < a + len → vals !! i = Some (Some who)) →
  (a = 0 ∨ vals !! (a - 1) ≠ Some (Some who)) →
  vals !! (a + len) ≠ Some (Some who) →
  cellsFrom None vals !! a = Some (mkCell (Some who) len false) ∧
  ∀ i, a < i < a + len → cellsFrom None vals !! i = Some hiddenCell.
Proof.
  intros Hwho Hlen Hrun Hleft Hright. split.
  - rewrite cellsFrom_lookup, (Hrun a) by lia. simpl. unfold cellFor.
    rewrite Hwho. rewrite bool_decide_eq_false_2.
    + simpl. do 2 f_equal.
      rewrite (runLen_exact (Some who) (drop (S a) vals) (len - 1)); [lia| |].
      * intros j Hj. rewrite lookup_drop. apply Hrun. lia.
      * rewrite lookup_drop. by replace (S a + (len - 1)) with (a + len) by lia.
    + destruct a as [|a]; [done|].
      destruct Hleft as [?|Hleft]; [done|].
      by replace (S a - 1) with a in Hleft by lia.
  - intros i Hi. destruct i as [|i]; [lia|].
    rewrite cellsFrom_lookup, (Hrun (S i)), (Hrun i) by lia. simpl.
    unfold cellFor. rewrite Hwho. by rewrite bool_decide_eq_true_2.
Qed.

Lemma cellsFrom_none prev vals i :
  vals !! i = Some None → cellsFrom prev vals !! i = Some emptyCell.
Proof. intros Hnone. by rewrite cellsFrom_lookup, Hnone. Qed.

Lemma run_slice (col : list GridCell) a len c :
  0 < len →
  col !! a = Some c →
  (∀ i, a < i < a + len → col !! i = Some hiddenCell) →
  take len (drop a col) = c :: replicate (len - 1) hiddenCell.
Proof.
  intros Hlen Hown Hrest. apply list_eq. intros i.
  destruct (decide (i < len)) as [Hi|Hi].
  - rewrite lookup_take_lt, lookup_drop by done.
    destruct i as [|i]; simpl.
    + by rewrite Nat.add_0_r.
    + rewrite Hrest by lia. symmetry. apply lookup_replicate_2. lia.
  - rewrite lookup_take_ge by lia. symmetry. apply lookup_ge_None_2.
    simpl. rewrite length_replicate. lia.
Qed.

(** ** The builder does not depend on the rest of the calendar *)

Lemma forEach_ext {S : Type} idxs (body1 body2 : nat → S → result S) s :
  (∀ i t, body1 i t = body2 i t) → forEach idxs body1 s = forEach idxs body2 s.
Proof.
  intros Hext. revert s. induction idxs as [|i rest IH]; intros s; [done|].
  simpl. rewrite Hext. destruct (body2 i s); simpl; [apply IH|done].
Qed.

Lemma scanRun_ext engine c1 c2 day who d idxs grid span :
  hours c1 = hours c2 →
  scanRun engine c1 day who d idxs grid span
  = scanRun engine c2 day who d idxs grid span.
Proof.
  intros Hh. revert grid span.
  induction idxs as [|i rest IH]; intros grid span; [done|].
  simpl. rewrite Hh. destruct (readHour (hours c2) i); simpl; [|done].
  case_decide; [|done].
  destruct (updateCell grid i d (setHidden true)); simpl; [apply IH|done].
Qed.

Lemma fillHour_ext engine c1 c2 day d h grid :
  hours c1 = hours c2 →
  fillHour engine c1 day d h grid = fillHour engine c2 day d h grid.
Proof.
  intros Hh. unfold fillHour. rewrite Hh.
  destruct (readCell grid h d) as [c|]; simpl; [|done].
  destruct (hidden c); [done|].
  destruct (readHour (hours c2) h) as [hour|]; simpl; [|done].
  destruct (updateCell grid h d (setInstructor (engine day hour))); simpl; [|done].
  destruct (negb (truthy (engine day hour))); [done|].
  by rewrite (scanRun_ext engine c1 c2).
Qed.

Lemma fillDay_ext engine c1 c2 day grid :
  hours c1 = hours c2 → holidays c1 = holidays c2 →
  fillDay engine c1 day grid = fillDay engine c2 day grid.
Proof.
  intros Hh Hhol. unfold fillDay. rewrite Hh, Hhol.
  case_bool_decide; [done|].
  apply forEach_ext. intros i t. by apply fillHour_ext.
Qed.

Lemma scheduleGridWith_ext engine c1 c2 :
  daysInMonth c1 = daysInMonth c2 → hours c1 = hours c2 →
  holidays c1 = holidays c2 →
  scheduleGridWith engine c1 = scheduleGridWith engine c2.
Proof.
  intros Hd Hh Hhol. unfold scheduleGridWith, initGrid. rewrite Hd, Hh.
  destruct (forEach (seq 0 (length (hours c2))) _ []) as [grid|]; simpl; [|done].
  apply forEach_ext. intros i t. by apply fillDay_ext.
Qed.

(** ** The stated properties *)

(** C1. [getInstructor] returns, for every day and hour, the instructor that
    the eight precedence rules of section 4.1 give when they are tried in
    order and the first match wins; the nine evaluations of section 8 hold. *)
Theorem getInstructor_follows_precedence :
  (∀ day hour : Z, getInstructor day hour = assignInstructor day hour) ∧
  getInstructor 9 8 = Some "Sosa" ∧
  getInstructor 13 15 = Some "Gota" ∧
  getInstructor 13 9 = None ∧
  getInstructor 20 12 = Some "Emi" ∧
  getInstructor 20 9 = None ∧
  getInstructor 17 12 = Some "Gota" ∧
  getInstructor 1 18 = Some "Gota" ∧
  getInstructor 1 11 = Some "Kayo" ∧
  getInstructor 1 9 = None.
Proof.
  split; [exact getInstructor_assignInstructor|].
  repeat split; reflexivity.
Qed.

(** C2. On a working day, a maximal run of consecutive hour indices
    [a .. a+len-1] on which [getInstructor] gives the same instructor [who]
    has its first cell visible with [rowspan = len], every other cell of the
    run hidden, and so exactly one visible cell. *)
Theorem merged_run_has_one_owner (cal : Calendar) (day a len : nat) (who : string) :
  1 ≤ day ≤ daysInMonth cal →
  Z.of_nat day ∉ holidays cal →
  0 < len →
  (∀ i, a ≤ i < a + len → dayValues getInstructor cal day !! i = Some (Some who)) →
  (a = 0 ∨ dayValues getInstructor cal day !! (a - 1) ≠ Some (Some who)) →
  dayValues getInstructor cal day !! (a + len) ≠ Some (Some who) →
  ∃ grid,
    scheduleGrid cal = Ok grid ∧
    cellAt grid a (day - 1) = Some (mkCell (Some who) len false) ∧
    (∀ i, a < i < a + len → hidden <$> cellAt grid i (day - 1) = Some true) ∧
    visibleCount (take len (drop a (column (day - 1) grid))) = 1.
Proof.
  intros Hday Hwork Hlen Hrun Hleft Hright.
  pose proof (dayValues_nonempty _ _ _ _ _ (Hrun a ltac:(lia))) as Hne.
  destruct (scheduleGridWith_day getInstructor cal day Hne Hday)
    as (grid & Hok & Hrect & Hcol).
  rewrite dayColumn_working in Hcol by done.
  assert (truthy (Some who) = true) as Hwho.
  { pose proof (Hrun a ltac:(lia)) as Ha. unfold dayValues in Ha.
    apply list_lookup_fmap_Some_1 in Ha as (hr & Heq & _).
    by apply (getInstructor_truthy (Z.of_nat day) hr). }
  destruct (cellsFrom_run _ a len who Hwho Hlen Hrun Hleft Hright) as [Hown Hrest].
  rewrite <- Hcol in Hown, Hrest.
  exists grid. split; [exact Hok|]. split; [|split].
  - rewrite (cellAt_column _ _ grid a (day - 1) Hrect) by lia. exact Hown.
  - intros i Hi.
    rewrite (cellAt_column _ _ grid i (day - 1) Hrect) by lia.
    by rewrite Hrest.
  - rewrite (run_slice _ a len _ Hlen Hown Hrest).
    rewrite visibleCount_cons, visibleCount_hidden. reflexivity.
Qed.

(** C3. For a holiday, the column of that day has the cell
    [{instructor: "休み", rowspan: hours.length, hidden: false}] at hour
    index 0 and a hidden cell at every later hour index, whatever the rule
    engine is. *)
Theorem holiday_column_invariant (cal : Calendar) (day : nat) :
  hours cal ≠ [] →
  1 ≤ day ≤ daysInMonth cal →
  Z.of_nat day ∈ holidays cal →
  ∃ grid,
    scheduleGrid cal = Ok grid ∧
    cellAt grid 0 (day - 1) = Some (holidayCell (length (hours cal))) ∧
    (∀ h, 0 < h < length (hours cal) →
          hidden <$> cellAt grid h (day - 1) = Some true) ∧
    (∀ engine, ∃ grid',
        scheduleGridWith engine cal = Ok grid' ∧
        column (day - 1) grid' = column (day - 1) grid).
Proof.
  intros Hne Hday Hhol.
  destruct (scheduleGridWith_day getInstructor cal day Hne Hday)
    as (grid & Hok & Hrect & Hcol).
  rewrite dayColumn_holiday in Hcol by done.
  exists grid. split; [exact Hok|]. split; [|split].
  - rewrite (cellAt_column _ _ grid 0 (day - 1) Hrect) by lia.
    by rewrite Hcol.
  - intros h Hh.
    rewrite (cellAt_column _ _ grid h (day - 1) Hrect) by lia.
    rewrite Hcol. destruct h as [|h]; [lia|]. unfold holidayColumn. simpl.
    rewrite lookup_replicate_2 by lia. reflexivity.
  - intros engine.
    destruct (scheduleGridWith_day engine cal day Hne Hday)
      as (grid' & Hok' & _ & Hcol').
    exists grid'. split; [exact Hok'|].
    rewrite Hcol', Hcol. by apply dayColumn_holiday.
Qed.

(** C4. Days 13 and 20 are restricted as a whole: on day 13 the engine
    gives "Gota" exactly for the hours 10..20 and nothing otherwise, on day 20
    "Emi" exactly for the hours 11..13 and nothing otherwise; so the evening
    hours 17..20 of day 20 are empty, where an ordinary day has "Gota". *)
Theorem special_days_restrict_whole_day (hour : Z) :
  (getInstructor 13 hour = Some "Gota" ↔ (10 ≤ hour ≤ 20)%Z) ∧
  (getInstructor 13 hour = None ↔ ¬ (10 ≤ hour ≤ 20)%Z) ∧
  (getInstructor 20 hour = Some "Emi" ↔ (11 ≤ hour ≤ 13)%Z) ∧
  (getInstructor 20 hour = None ↔ ¬ (11 ≤ hour ≤ 13)%Z) ∧
  Forall (fun evening => getInstructor 20 evening = None ∧
                         getInstructor 21 evening = Some "Gota")
         [17; 18; 19; 20]%Z.
Proof.
  rewrite getInstructor_day13, getInstructor_day20.
  rewrite <- !within_spec.
  destruct (within 10 20 hour), (within 11 13 hour);
    repeat split; intros; try done; repeat constructor.
Qed.

(** C5. On a working day, an hour index at which [getInstructor] gives
    nothing has a cell that is neither hidden nor merged: its instructor is
    [null], its rowspan 1 and [hidden] is false, whatever its neighbours
    hold. *)
Theorem none_hour_never_merged (cal : Calendar) (day i : nat) :
  1 ≤ day ≤ daysInMonth cal →
  Z.of_nat day ∉ holidays cal →
  dayValues getInstructor cal day !! i = Some None →
  ∃ grid,
    scheduleGrid cal = Ok grid ∧
    cellAt grid i (day - 1) = Some (mkCell None 1 false).
Proof.
  intros Hday Hwork Hnone.
  pose proof (dayValues_nonempty _ _ _ _ _ Hnone) as Hne.
  destruct (scheduleGridWith_day getInstructor cal day Hne Hday)
    as (grid & Hok & Hrect & Hcol).
  rewrite dayColumn_working in Hcol by done.
  exists grid. split; [exact Hok|].
  rewrite (cellAt_column _ _ grid i (day - 1) Hrect) by lia.
  rewrite Hcol. by apply cellsFrom_none.
Qed.

(** C6. In the built grid, in every day column, the rowspans of the visible
    cells add up to [hours.length]. *)
Theorem rowspan_sum_invariant (cal : Calendar) :
  hours cal ≠ [] →
  ∃ grid,
    scheduleGrid cal = Ok grid ∧
    ∀ d, d < daysInMonth cal →
         rowspanSum (column d grid) = length (hours cal).
Proof.
  intros Hne.
  destruct (scheduleGridWith_columns getInstructor cal Hne)
    as (grid & Hok & _ & Hcols).
  exists grid. split; [exact Hok|].
  intros d Hd. rewrite Hcols by done. by apply dayColumn_rowspanSum.
Qed.

(** C7, as the specification words it in section 3: the rowspans of the
    visible cells plus the hidden cells they cover would add up to
    [hours.length].  They do not: a rowspan already counts the hidden cells
    under it.  In the page's grid the column of day 5, a holiday, gives
    13 + 12, and the column of day 1 gives 13 + 9, against 13 hours. *)
Lemma rowspan_plus_covered_overcounts :
  ∃ grid,
    scheduleGrid calendarInfo = Ok grid ∧
    length (hours calendarInfo) = 13 ∧
    rowspanSum (column 4 grid) + coveredHidden (column 4 grid) = 25 ∧
    rowspanSum (column 0 grid) + coveredHidden (column 0 grid) = 22.
Proof.
  eexists. split; [vm_compute; reflexivity|].
  split; [reflexivity|]. split; vm_compute; reflexivity.
Qed.

(** C7, amended.  In every day column the rowspans of the visible cells add
    up to [hours.length], each rowspan counting its own cell and the hidden
    cells it covers: the number of visible cells plus the number of hidden
    cells they cover is [hours.length]. *)
Theorem visible_plus_covered_invariant (cal : Calendar) :
  hours cal ≠ [] →
  ∃ grid,
    scheduleGrid cal = Ok grid ∧
    ∀ d, d < daysInMonth cal →
         rowspanSum (column d grid) = length (hours cal) ∧
         visibleCount (column d grid) + coveredHidden (column d grid)
         = length (hours cal).
Proof.
  intros Hne.
  destruct (scheduleGridWith_columns getInstructor cal Hne)
    as (grid & Hok & _ & Hcols).
  exists grid. split; [exact Hok|].
  intros d Hd. rewrite Hcols by done.
  split; [by apply dayColumn_rowspanSum|by apply dayColumn_covered].
Qed.

(** C8, as stated: the engine would fail loudly on a day outside
    [1..daysInMonth] or an hour outside the hour list.  It returns instead:
    nothing for day 42 at 9 and for day 1 at 25, "Kayo" for day 0 at 11. *)
Lemma out_of_range_returns_silently :
  (¬ inDomain calendarInfo 42 9 ∧ callGetInstructor 42 9 = Returned None) ∧
  (¬ inDomain calendarInfo 1 25 ∧ callGetInstructor 1 25 = Returned None) ∧
  (¬ inDomain calendarInfo 0 11 ∧ callGetInstructor 0 11 = Returned (Some "Kayo")).
Proof.
  unfold inDomain. simpl. repeat split; try reflexivity.
  - intros [? _]. lia.
  - intros [_ Hin]. rewrite !elem_of_cons, elem_of_nil in Hin. lia.
  - intros [? _]. lia.
Qed.

(** C8, amended.  For a day outside [1..daysInMonth] or an hour outside the
    hour list the engine does not fail: it checks nothing and returns what
    the precedence rules of section 4.1 give for these two numbers. *)
Theorem out_of_range_not_validated (cal : Calendar) (day hour : Z) :
  ¬ inDomain cal day hour →
  callGetInstructor day hour = Returned (assignInstructor day hour) ∧
  callGetInstructor day hour ≠ Thrown.
Proof.
  intros _. unfold callGetInstructor.
  by rewrite getInstructor_assignInstructor.
Qed.

(** C9. Building the grid is a function of [daysInMonth], the hour list
    and the holiday set alone: two calendars that agree on these give the
    same outcome and, when a grid is built, the same grid; and two calls of
    [getInstructor] on the same day and hour return the same value. *)
Theorem scheduleGrid_deterministic (c1 c2 : Calendar) :
  daysInMonth c1 = daysInMonth c2 →
  hours c1 = hours c2 →
  holidays c1 = holidays c2 →
  scheduleGrid c1 = scheduleGrid c2 ∧
  (∀ g1 g2, scheduleGrid c1 = Ok g1 → scheduleGrid c2 = Ok g2 → g1 = g2) ∧
  (∀ day hour v1 v2,
      callGetInstructor day hour = Returned v1 →
      callGetInstructor day hour = Returned v2 → v1 = v2).
Proof.
  intros Hd Hh Hhol.
  assert (scheduleGrid c1 = scheduleGrid c2) as Heq
    by (by apply scheduleGridWith_ext).
  split; [exact Heq|split].
  - intros g1 g2 H1 H2. rewrite Heq, H2 in H1. by injection H1.
  - intros day hour v1 v2 H1 H2. rewrite H1 in H2. by injection H2.
Qed.

(** C10. [getInstructor] validates nothing and is defined on all integers:
    on any day that no rule names, inside the month or not, it returns
    "Kayo" for the hours 10..16, "Gota" for 17..20 and nothing, not an error,
    for every other hour. *)
Theorem getInstructor_total_unvalidated (day hour : Z) :
  day ∉ specialDays →
  callGetInstructor day hour =
    Returned (if within 10 16 hour then Some "Kayo"
              else if within 17 20 hour then Some "Gota"
              else None).
Proof.
  intros Hday. unfold callGetInstructor.
  by rewrite getInstructor_ordinary_day.
Qed.

(** ** The properties on concrete calendars *)

(** The scenario of section 8: day 5 is one cell over all 13 hours, and day
    3 has "Emi" at 12 and nothing at 9. *)
Example scenario_day5_day3 :
  ∃ grid,
    scheduleGrid calendarInfo = Ok grid ∧
    column 4 grid = holidayCell 13 :: replicate 12 hiddenCell ∧
    getInstructor 3 12 = Some "Emi" ∧ getInstructor 3 9 = None.
Proof. eexists. repeat split; vm_compute; reflexivity. Qed.

(** Day 1 of the page: two empty hours, seven of "Kayo", four of "Gota". *)
Example column_day1 :
  ∃ grid,
    scheduleGrid calendarInfo = Ok grid ∧
    column 0 grid =
      [emptyCell; emptyCell;
       mkCell (Some "Kayo") 7 false] ++ replicate 6 hiddenCell ++
      [mkCell (Some "Gota") 4 false] ++ replicate 3 hiddenCell.
Proof. eexists. split; vm_compute; reflexivity. Qed.

(** With the hours 10, 9, 11 the two "Kayo" hours around the empty one stay
    apart. *)
Example column_with_gap :
  scheduleGrid gapCalendar =
  Ok [[mkCell (Some "Kayo") 1 false; holidayCell 3];
      [emptyCell; hiddenCell];
      [mkCell (Some "Kayo") 1 false; hiddenCell]].
Proof. vm_compute. reflexivity. Qed.

(** With no hour and a holiday the builder throws at line 81. *)
Example no_hours_throws :
  scheduleGrid (mkCalendar 2025 10 "11月" 30 [] [] [5]%Z) = Err TypeError.
Proof. vm_compute. reflexivity. Qed.

Lemma merged_run_has_one_owner_witness :
  ∃ grid,
    scheduleGrid calendarInfo = Ok grid ∧
    cellAt grid 2 (1 - 1) = Some (mkCell (Some "Kayo") 7 false) ∧
    (∀ i, 2 < i < 2 + 7 → hidden <$> cellAt grid i (1 - 1) = Some true) ∧
    visibleCount (take 7 (drop 2 (column (1 - 1) grid))) = 1.
Proof.
  apply (merged_run_has_one_owner calendarInfo 1 2 7 "Kayo").
  - simpl. lia.
  - simpl. rewrite !not_elem_of_cons. repeat split; try lia. apply not_elem_of_nil.
  - lia.
  - intros i Hi.
    do 9 (destruct i as [|i]; [first [lia | reflexivity]|]). lia.
  - right. simpl. discriminate.
  - simpl. discriminate.
Defined.

Lemma holiday_column_invariant_witness :
  ∃ grid,
    scheduleGrid calendarInfo = Ok grid ∧
    cellAt grid 0 (5 - 1) = Some (holidayCell (length (hours calendarInfo))) ∧
    (∀ h, 0 < h < length (hours calendarInfo) →
          hidden <$> cellAt grid h (5 - 1) = Some true) ∧
    (∀ engine, ∃ grid',
        scheduleGridWith engine calendarInfo = Ok grid' ∧
        column (5 - 1) grid' = column (5 - 1) grid).
Proof.
  apply (holiday_column_invariant calendarInfo 5).
  - discriminate.
  - simpl. lia.
  - simpl. rewrite !elem_of_cons. left. reflexivity.
Defined.

Lemma none_hour_never_merged_witness :
  ∃ grid,
    scheduleGrid gapCalendar = Ok grid ∧
    cellAt grid 1 (1 - 1) = Some (mkCell None 1 false).
Proof.
  apply (none_hour_never_merged gapCalendar 1 1).
  - simpl. lia.
  - simpl. rewrite !not_elem_of_cons. repeat split; try lia. apply not_elem_of_nil.
  - reflexivity.
Defined.

Lemma rowspan_sum_invariant_witness :
  ∃ grid,
    scheduleGrid calendarInfo = Ok grid ∧
    ∀ d, d < daysInMonth calendarInfo →
         rowspanSum (column d grid) = length (hours calendarInfo).
Proof. apply (rowspan_sum_invariant calendarInfo). discriminate. Defined.

Lemma visible_plus_covered_invariant_witness :
  ∃ grid,
    scheduleGrid calendarInfo = Ok grid ∧
    ∀ d, d < daysInMonth calendarInfo →
         rowspanSum (column d grid) = length (hours calendarInfo) ∧
         visibleCount (column d grid) + coveredHidden (column d grid)
         = length (hours calendarInfo).
Proof. apply (visible_plus_covered_invariant calendarInfo). discriminate. Defined.

Lemma out_of_range_not_validated_witness :
  callGetInstructor 42 9 = Returned (assignInstructor 42 9) ∧
  callGetInstructor 42 9 ≠ Thrown.
Proof.
  apply (out_of_range_not_validated calendarInfo 42 9).
  unfold inDomain. simpl. intros [? _]. lia.
Defined.

Lemma scheduleGrid_deterministic_witness :
  scheduleGrid calendarInfo = scheduleGrid calendarNextYear ∧
  (∀ g1 g2, scheduleGrid calendarInfo = Ok g1 →
            scheduleGrid calendarNextYear = Ok g2 → g1 = g2) ∧
  (∀ day hour v1 v2,
      callGetInstructor day hour = Returned v1 →
      callGetInstructor day hour = Returned v2 → v1 = v2).
Proof.
  apply (scheduleGrid_deterministic calendarInfo calendarNextYear);
    reflexivity.
Defined.

Lemma getInstructor_total_unvalidated_witness :
  callGetInstructor 0 12 = Returned (Some "Kayo") ∧
  callGetInstructor 42 18 = Returned (Some "Gota") ∧
  callGetInstructor 42 3 = Returned None.
Proof.
  assert (∀ day : Z, (day = 0 ∨ day = 42)%Z → day ∉ specialDays) as Hout.
  { intros day Hday. unfold specialDays. rewrite !not_elem_of_cons.
    repeat split; try lia. apply not_elem_of_nil. }
  split; [|split].
  - apply (getInstructor_total_unvalidated 0 12). apply Hout. lia.
  - apply (getInstructor_total_unvalidated 42 18). apply Hout. lia.
  - apply (getInstructor_total_unvalidated 42 3). apply Hout. lia.
Defined.

(** ** Further properties of the rule engine *)

(** The if-chain of [getInstructor] read backwards: who teaches when. *)
Theorem instructor_timetable (day hour : Z) :
  (getInstructor day hour = Some "Sosa" ↔
     (day = 9 ∨ day = 16 ∨ day = 29) ∧ 8 ≤ hour ≤ 9)%Z ∧
  (getInstructor day hour = Some "Emi" ↔
     (day = 20 ∨ day = 3 ∨ day = 24) ∧ 11 ≤ hour ≤ 13)%Z ∧
  (getInstructor day hour = Some "Gota" ↔
     (day = 13 ∧ 10 ≤ hour ≤ 20) ∨
     (day ≠ 13 ∧ day ≠ 20 ∧
      (17 ≤ hour ≤ 20 ∨ ((day = 17 ∨ day = 28) ∧ 10 ≤ hour ≤ 16))))%Z ∧
  (getInstructor day hour = Some "Kayo" ↔
     10 ≤ hour ≤ 16 ∧ day ≠ 13 ∧ day ≠ 20 ∧ day ≠ 17 ∧ day ≠ 28 ∧
     ¬ ((day = 3 ∨ day = 24) ∧ 11 ≤ hour ≤ 13))%Z ∧
  (getInstructor day hour = None ↔
     hour < 8 ∨ 20 < hour ∨
     (8 ≤ hour ≤ 9 ∧ day ≠ 9 ∧ day ≠ 16 ∧ day ≠ 29) ∨
     (day = 20 ∧ (hour < 11 ∨ 13 < hour)))%Z.
Proof.
  unfold getInstructor. rewrite !Z.geb_leb.
  repeat case_match;
    repeat match goal with
           | H : _ && _ = true |- _ => apply andb_true_iff in H as [? ?]
           | H : _ || _ = true |- _ => apply orb_true_iff in H
           | H : _ && _ = false |- _ => apply andb_false_iff in H
           | H : _ || _ = false |- _ => apply orb_false_iff in H as [? ?]
           | H : (_ =? _)%Z = true |- _ => apply Z.eqb_eq in H
           | H : (_ =? _)%Z = false |- _ => apply Z.eqb_neq in H
           | H : (_ <=? _)%Z = true |- _ => apply Z.leb_le in H
           | H : (_ <=? _)%Z = false |- _ => apply Z.leb_gt in H
           end;
    repeat split; intros; first [discriminate | reflexivity | lia].
Qed.

(** Whatever the day and hour, an instructor that the engine names is one of
    four, and [instructorColors] has a colour for it; the names "Nozomi" and
    "Hanako" of the colour table are never assigned. *)
Theorem assigned_instructor_has_colour (day hour : Z) (who : string) :
  getInstructor day hour = Some who →
  who ∈ ["Sosa"; "Gota"; "Emi"; "Kayo"] ∧
  is_Some (colorOf who) ∧
  who ≠ "休み".
Proof.
  unfold getInstructor. intros H.
  repeat case_match; simplify_eq;
    (split; [rewrite !elem_of_cons; auto 10|split; [by eexists|discriminate]]).
Qed.

(** ** Further properties of the grid builder *)

Lemma fillDays_no_hours_exact engine cal days :
  hours cal = [] →
  forEach days (fillDay engine cal) [] =
  if existsb (fun day => bool_decide (Z.of_nat day ∈ holidays cal)) days
  then Err TypeError else Ok [].
Proof.
  intros Hno. induction days as [|day days IH]; [done|].
  assert (fillDay engine cal day [] =
          if bool_decide (Z.of_nat day ∈ holidays cal)
          then Err TypeError else Ok []) as Hstep.
  { unfold fillDay. rewrite Hno. by case_bool_decide. }
  cbn [forEach existsb]. rewrite Hstep.
  case_bool_decide; simpl; [done|exact IH].
Qed.

Lemma holiday_in_month cal :
  existsb (fun day => bool_decide (Z.of_nat day ∈ holidays cal))
          (seq 1 (daysInMonth cal)) = true ↔
  ∃ day, 1 ≤ day ≤ daysInMonth cal ∧ Z.of_nat day ∈ holidays cal.
Proof.
  rewrite existsb_exists. split.
  - intros (day & Hin & Hhol). apply in_seq in Hin.
    apply bool_decide_eq_true_1 in Hhol. exists day. split; [lia|done].
  - intros (day & Hday & Hhol). exists day. split.
    + apply in_seq. lia.
    + by apply bool_decide_eq_true_2.
Qed.

(** The builder throws exactly when the hour list is empty and some day of
    the month is a holiday (line 81 then indexes a row that does not exist);
    in every other case it returns a grid of [hours.length] rows of
    [daysInMonth] cells. *)
Theorem scheduleGrid_outcome (cal : Calendar) :
  (scheduleGrid cal = Err TypeError ↔
     hours cal = [] ∧
     ∃ day, 1 ≤ day ≤ daysInMonth cal ∧ Z.of_nat day ∈ holidays cal) ∧
  (scheduleGrid cal ≠ Err TypeError →
     ∃ grid, scheduleGrid cal = Ok grid ∧
             Rect (length (hours cal)) (daysInMonth cal) grid).
Proof.
  destruct (decide (hours cal = [])) as [Hno|Hne].
  - assert (scheduleGrid cal =
            if existsb (fun day => bool_decide (Z.of_nat day ∈ holidays cal))
                       (seq 1 (daysInMonth cal))
            then Err TypeError else Ok []) as Hrun.
    { unfold scheduleGrid, scheduleGridWith. rewrite initGrid_spec, Hno. simpl.
      by apply fillDays_no_hours_exact. }
    rewrite Hrun, <- holiday_in_month.
    destruct (existsb _ _); split.
    + split; [done|]. by intros _.
    + intros Hcontra. by destruct Hcontra.
    + split; [done|]. by intros [_ ?].
    + intros _. exists []. split; [done|]. rewrite Hno. split; [done|constructor].
  - destruct (scheduleGridWith_columns getInstructor cal Hne)
      as (grid & Hok & Hrect & _).
    unfold scheduleGrid. rewrite Hok. split.
    + split; [done|]. by intros [? _].
    + intros _. by exists grid.
Qed.

(** The column of a day is settled by the hour list and by whether that day
    is a holiday: other holidays, the order of the holiday list and the
    length of the month leave it as it is. *)
Theorem day_column_depends_on_its_day (c1 c2 : Calendar) (day : nat) :
  hours c1 = hours c2 →
  hours c1 ≠ [] →
  1 ≤ day ≤ daysInMonth c1 →
  1 ≤ day ≤ daysInMonth c2 →
  (Z.of_nat day ∈ holidays c1 ↔ Z.of_nat day ∈ holidays c2) →
  ∃ g1 g2,
    scheduleGrid c1 = Ok g1 ∧ scheduleGrid c2 = Ok g2 ∧
    column (day - 1) g1 = column (day - 1) g2.
Proof.
  intros Hh Hne Hd1 Hd2 Hhol.
  destruct (scheduleGridWith_day getInstructor c1 day Hne Hd1)
    as (g1 & Hok1 & _ & Hcol1).
  destruct (scheduleGridWith_day getInstructor c2 day) as (g2 & Hok2 & _ & Hcol2);
    [by rewrite <- Hh|done|].
  exists g1, g2. split; [done|split; [done|]].
  rewrite Hcol1, Hcol2. unfold dayColumn, dayValues. rewrite Hh.
  by rewrite (bool_decide_ext _ _ Hhol).
Qed.

(** ** The rendered body *)

Lemma omap_lookup_total {A B : Type} (f : A → option B) (l : list A) i :
  Forall (fun x => is_Some (f x)) l → omap f l !! i = l !! i ≫= f.
Proof.
  intros Hall. revert i. induction Hall as [|x l [y Hy] _ IH]; intros i; [done|].
  change (omap f (x :: l)) with
    (match f x with Some y => y :: omap f l | None => omap f l end).
  rewrite Hy. destruct i as [|i]; simpl; [done|apply IH].
Qed.

Lemma collectFrom_Ok {A B : Type} (f : nat → A → result B) (g : nat → A → B) l :
  ∀ s, (∀ i x, l !! i = Some x → f (s + i) x = Ok (g (s + i) x)) →
       collectFrom f s l = Ok (imap (fun i => g (s + i)) l).
Proof.
  induction l as [|x l IH]; intros s Hf; [done|].
  simpl. rewrite <- (Nat.add_0_r s) at 1. rewrite (Hf 0 x) by done. simpl.
  rewrite (IH (S s)).
  - simpl. rewrite Nat.add_0_r. do 2 f_equal.
    apply imap_ext. intros i y _. simpl. f_equal. lia.
  - intros i y Hy. replace (S s + i) with (s + S i) by lia. by apply Hf.
Qed.

Lemma cellAt_is_Some nh nd grid h d :
  Rect nh nd grid → h < nh → d < nd → is_Some (cellAt grid h d).
Proof.
  intros Hrect Hh Hd. rewrite (cellAt_column nh nd) by done.
  apply lookup_lt_is_Some_2. by rewrite (column_length nh nd).
Qed.

Section RenderFacts.
Variable dateGetDay : Z -> Z -> nat -> Z.
Variable cal : Calendar.

Lemma bodyCell_there grid h d c :
  cellAt grid h d = Some c →
  bodyCell dateGetDay cal grid h d = Ok (tdIfVisible dateGetDay cal (d + 1) c).
Proof.
  unfold cellAt, bodyCell, readCell, readRow, tdIfVisible. intros Hc.
  destruct (grid !! h) as [row|]; simpl in *; [|done].
  rewrite Hc. simpl. by destruct (hidden c).
Qed.

(** On a grid of the right shape the body renders without an exception,
    row by row and day by day. *)
Lemma renderBody_columns grid :
  Rect (length (hours cal)) (daysInMonth cal) grid →
  ∃ rows,
    renderBody dateGetDay cal grid = Ok rows ∧
    tr_hour <$> rows = hours cal ∧
    Forall (fun row => length (tr_cells row) = daysInMonth cal) rows ∧
    ∀ d, d < daysInMonth cal →
         renderedColumn d rows
         = tdIfVisible dateGetDay cal (d + 1) <$> column d grid.
Proof.
  intros Hrect.
  set (cellOf h d := default emptyCell (cellAt grid h d)).
  set (rowOf (h : nat) (hour : Z) :=
         mkTr hour hour
           (imap (fun _ d => tdIfVisible dateGetDay cal (d + 1) (cellOf h d))
                 (seq 0 (daysInMonth cal)))).
  exists (imap rowOf (hours cal)).
  assert (∀ h d, h < length (hours cal) → d < daysInMonth cal →
                 cellAt grid h d = Some (cellOf h d)) as Hcell.
  { intros h d Hh Hd. unfold cellOf.
    destruct (cellAt_is_Some _ _ grid h d Hrect Hh Hd) as [c ->]. done. }
  split; [|split; [|split]].
  - unfold renderBody.
    rewrite (collectFrom_Ok _ rowOf (hours cal) 0); [done|].
    intros h hour Hhour. simpl.
    rewrite (collectFrom_Ok _
               (fun _ d => tdIfVisible dateGetDay cal (d + 1) (cellOf h d)) _ 0);
      [done|].
    intros i d Hd. apply lookup_seq in Hd as [-> Hi]. simpl.
    apply bodyCell_there, Hcell; [|done].
    by apply lookup_lt_Some in Hhour.
  - apply list_eq. intros h.
    rewrite list_lookup_fmap, list_lookup_imap.
    by destruct (hours cal !! h).
  - apply Forall_forall. intros row Hrow.
    apply elem_of_lookup_imap in Hrow as (h & hour & -> & _).
    simpl. by rewrite length_imap, length_seq.
  - intros d Hd. apply list_eq. intros h. unfold renderedColumn.
    rewrite omap_lookup_total.
    + rewrite list_lookup_imap, list_lookup_fmap.
      rewrite <- (cellAt_column _ _ grid h d Hrect Hd).
      destruct (hours cal !! h) as [hour|] eqn:Hhour; simpl.
      * rewrite list_lookup_imap, lookup_seq_lt by done. simpl.
        rewrite Hcell; [done| |done]. by apply lookup_lt_Some in Hhour.
      * apply lookup_ge_None_1 in Hhour.
        destruct (cellAt grid h d) eqn:Hc; [|done].
        rewrite (cellAt_column _ _ grid h d Hrect Hd) in Hc.
        apply lookup_lt_Some in Hc.
        rewrite (column_length _ _ d grid Hrect Hd) in Hc. lia.
    + apply Forall_forall. intros row Hrow.
      apply elem_of_lookup_imap in Hrow as (h' & hour & -> & _).
      simpl. apply lookup_lt_is_Some_2. by rewrite length_imap, length_seq.
Qed.

End RenderFacts.

(** ** Rendered columns of the built grid *)

Lemma runLen_take who vals :
  take (runLen who vals) vals = replicate (runLen who vals) who.
Proof.
  induction vals as [|v rest IH]; simpl; [done|].
  case_decide; [|done]. subst v. simpl. by rewrite IH.
Qed.

Lemma dividers_length n : length (dividers n) = n - 1.
Proof.
  unfold dividers. destruct (1 <? n) eqn:Hn.
  - by rewrite length_fmap, length_seq.
  - apply Nat.ltb_ge in Hn. simpl. lia.
Qed.

Lemma getInstructor_named day hour who :
  getInstructor day hour = Some who →
  is_Some (colorOf who) ∧ who ≠ "休み".
Proof.
  unfold getInstructor. intros H.
  repeat case_match; simplify_eq; (split; [by eexists|discriminate]).
Qed.

Section RenderedColumns.
Variable dateGetDay : Z -> Z -> nat -> Z.
Variable cal : Calendar.
Variable day : nat.

Let T := tdIfVisible dateGetDay cal day.

Lemma spansFit_none n : spansFit n (replicate n None) = true.
Proof. induction n as [|n IH]; [done|]. simpl. by rewrite Nat.sub_0_r. Qed.

Lemma shownTexts_none cur n :
  shownTexts cur (replicate n None) = replicate n cur.
Proof. induction n as [|n IH]; [done|]. simpl. by rewrite IH. Qed.

Lemma markedRows_cons o col :
  markedRows (o :: col) =
  match o with
  | Some td => 1 + length (td_dividers td) + markedRows col
  | None => markedRows col
  end.
Proof. destruct o; reflexivity. Qed.

Lemma markedRows_none n : markedRows (replicate n None) = 0.
Proof. induction n as [|n IH]; [done|]. simpl. by rewrite markedRows_cons. Qed.

Lemma T_hidden n : T <$> replicate n hiddenCell = replicate n None.
Proof. by rewrite fmap_replicate. Qed.

Lemma mergeCol_spansFit p vals :
  p ≤ length vals → spansFit p (T <$> mergeCol p vals) = true.
Proof.
  revert p. induction vals as [|v rest IH]; intros p Hp; simpl in *.
  - by replace p with 0 by lia.
  - destruct p as [|p].
    + destruct (truthy v); simpl.
      * rewrite Nat.sub_0_r. apply IH, runLen_le.
      * apply IH. lia.
    + simpl. rewrite Nat.sub_0_r. apply IH. lia.
Qed.

Lemma mergeCol_shownTexts p cur vals :
  take p vals = replicate p cur →
  shownTexts cur (T <$> mergeCol p vals) = vals.
Proof.
  revert p cur. induction vals as [|v rest IH]; intros p cur Hp; [done|].
  destruct p as [|p]; simpl in *.
  - destruct (truthy v); simpl; f_equal; apply IH; [apply runLen_take|done].
  - injection Hp as -> Hp. f_equal. by apply IH.
Qed.

Lemma mergeCol_markedRows p vals :
  p ≤ length vals → markedRows (T <$> mergeCol p vals) + p = length vals.
Proof.
  revert p. induction vals as [|v rest IH]; intros p Hp; [simpl in *; lia|].
  cbn [length] in *. destruct p as [|p]; cbn [mergeCol].
  - destruct (truthy v); rewrite fmap_cons, markedRows_cons;
      unfold T at 1, tdIfVisible; cbn [hidden tdOf td_dividers rowspan].
    + rewrite dividers_length.
      pose proof (runLen_le v rest). pose proof (IH (runLen v rest)). lia.
    + rewrite dividers_length. pose proof (IH 0). lia.
  - rewrite fmap_cons, markedRows_cons.
    unfold T at 1, tdIfVisible; cbn [hidden hiddenCell].
    pose proof (IH p). lia.
Qed.

Lemma holidayColumn_rendered n :
  0 < n →
  spansFit 0 (T <$> holidayColumn n) = true ∧
  shownTexts None (T <$> holidayColumn n) = replicate n (Some "休み") ∧
  markedRows (T <$> holidayColumn n) = n.
Proof.
  intros Hn. unfold holidayColumn. rewrite fmap_cons, T_hidden.
  destruct n as [|n]; [lia|]. simpl. rewrite Nat.sub_0_r.
  split; [|split].
  - apply spansFit_none.
  - by rewrite shownTexts_none.
  - rewrite markedRows_cons, markedRows_none.
    unfold T, tdIfVisible. cbn [hidden td_dividers tdOf rowspan holidayCell].
    rewrite dividers_length. lia.
Qed.

Lemma dayColumn_rendered :
  hours cal ≠ [] →
  let col := T <$> dayColumn getInstructor cal day in
  spansFit 0 col = true ∧
  shownTexts None col =
    (if bool_decide (Z.of_nat day ∈ holidays cal)
     then replicate (length (hours cal)) (Some "休み")
     else dayValues getInstructor cal day) ∧
  markedRows col = length (hours cal).
Proof.
  intros Hne. simpl. unfold dayColumn. case_bool_decide.
  - apply holidayColumn_rendered. destruct (hours cal); [done|simpl; lia].
  - split; [|split].
    + apply mergeCol_spansFit. lia.
    + by apply mergeCol_shownTexts.
    + pose proof (mergeCol_markedRows 0 (dayValues getInstructor cal day)) as Hm.
      unfold dayValues in *. rewrite length_fmap in Hm. lia.
Qed.

End RenderedColumns.

(** The built grid rendered: no exception, one row per hour, and the
    column of every day as [tdIfVisible] maps the grid's. *)
Lemma render_built_grid dateGetDay cal :
  hours cal ≠ [] →
  ∃ grid rows,
    scheduleGrid cal = Ok grid ∧
    renderBody dateGetDay cal grid = Ok rows ∧
    tr_hour <$> rows = hours cal ∧
    ∀ day, 1 ≤ day ≤ daysInMonth cal →
           renderedColumn (day - 1) rows
           = tdIfVisible dateGetDay cal day <$> dayColumn getInstructor cal day.
Proof.
  intros Hne.
  destruct (scheduleGridWith_columns getInstructor cal Hne)
    as (grid & Hok & Hrect & Hcols).
  destruct (renderBody_columns dateGetDay cal grid Hrect)
    as (rows & Hrender & Hhours & _ & Hrcols).
  exists grid, rows. split; [done|split; [done|split; [done|]]].
  intros day Hday. rewrite Hrcols, Hcols by lia.
  by replace (day - 1 + 1) with day by lia; replace (S (day - 1)) with day by lia.
Qed.

(** ** Properties of the rendered body *)

(** Rendering the built grid raises no exception and gives one row per
    hour; in the column of every day the spans fit: each [td] starts where
    the one above it ends and is followed by exactly [rowSpan - 1] rows
    without a [td], so every slot of the table is covered once. *)
Theorem rendered_spans_fit (dateGetDay : Z -> Z -> nat -> Z) (cal : Calendar) :
  hours cal ≠ [] →
  ∃ grid rows,
    scheduleGrid cal = Ok grid ∧
    renderBody dateGetDay cal grid = Ok rows ∧
    tr_hour <$> rows = hours cal ∧
    ∀ d, d < daysInMonth cal →
         length (renderedColumn d rows) = length (hours cal) ∧
         spansFit 0 (renderedColumn d rows) = true.
Proof.
  intros Hne.
  destruct (render_built_grid dateGetDay cal Hne)
    as (grid & rows & Hok & Hrender & Hhours & Hcols).
  exists grid, rows. split; [done|split; [done|split; [done|]]].
  intros d Hd. specialize (Hcols (S d) ltac:(lia)).
  replace (S d - 1) with d in Hcols by lia. rewrite Hcols.
  split.
  - rewrite length_fmap. unfold dayColumn. case_bool_decide.
    + apply holidayColumn_length. destruct (hours cal); [done|simpl; lia].
    + unfold dayValues. by rewrite mergeCol_length, length_fmap.
  - by apply dayColumn_rendered.
Qed.

(** What the rendered table shows beside each hour of a day, the text of
    the [td] that spans the row, is what [getInstructor] returns for that day
    and hour; on a holiday it is "休み" for every hour. *)
Theorem shown_text_is_engine_value (dateGetDay : Z -> Z -> nat -> Z)
    (cal : Calendar) (day : nat) :
  hours cal ≠ [] →
  1 ≤ day ≤ daysInMonth cal →
  ∃ grid rows,
    scheduleGrid cal = Ok grid ∧
    renderBody dateGetDay cal grid = Ok rows ∧
    shownTexts None (renderedColumn (day - 1) rows) =
      if bool_decide (Z.of_nat day ∈ holidays cal)
      then replicate (length (hours cal)) (Some "休み")
      else dayValues getInstructor cal day.
Proof.
  intros Hne Hday.
  destruct (render_built_grid dateGetDay cal Hne)
    as (grid & rows & Hok & Hrender & _ & Hcols).
  exists grid, rows. split; [done|split; [done|]].
  rewrite Hcols by done. by apply dayColumn_rendered.
Qed.

(** In the column of every day each of the [hours.length] rows is marked
    once: it starts a [td] or carries one of the divider lines drawn inside
    a merged [td]. *)
Theorem every_hour_row_is_marked (dateGetDay : Z -> Z -> nat -> Z) (cal : Calendar) :
  hours cal ≠ [] →
  ∃ grid rows,
    scheduleGrid cal = Ok grid ∧
    renderBody dateGetDay cal grid = Ok rows ∧
    ∀ d, d < daysInMonth cal →
         markedRows (renderedColumn d rows) = length (hours cal).
Proof.
  intros Hne.
  destruct (render_built_grid dateGetDay cal Hne)
    as (grid & rows & Hok & Hrender & _ & Hcols).
  exists grid, rows. split; [done|split; [done|]].
  intros d Hd. specialize (Hcols (S d) ltac:(lia)).
  replace (S d - 1) with d in Hcols by lia. rewrite Hcols.
  by apply dayColumn_rendered.
Qed.

(** The class of a rendered [td].  On a holiday the only [td] is the one of
    the first hour, in the "休み" style: the holiday background of line 191
    is never used.  On a working day the [td] of an assigned hour has the
    colour that [instructorColors] holds for the instructor, never
    "undefined", and the [td] of a free hour has the weekend or day-20
    background or none. *)
Theorem rendered_class_of_slot (dateGetDay : Z -> Z -> nat -> Z) (cal : Calendar)
    (grid : Grid) (rows : list Tr) (day h : nat) (hour : Z) (td : Td) :
  1 ≤ day ≤ daysInMonth cal →
  hours cal !! h = Some hour →
  scheduleGrid cal = Ok grid →
  renderBody dateGetDay cal grid = Ok rows →
  renderedColumn (day - 1) rows !! h = Some (Some td) →
  let base :=
    "border-r border-b border-gray-300 dark:border-gray-600 font-medium align-top " in
  let dayOfWeek := dateGetDay (YEAR cal) (MONTH cal) day in
  if bool_decide (Z.of_nat day ∈ holidays cal)
  then h = 0 ∧ td_text td = Some "休み" ∧
       td_className td =
         (base +:+ "bg-red-50 dark:bg-red-900/30 text-red-600 dark:text-red-400 text-xs p-1 pt-2")
         +:+ " relative"
  else td_text td = getInstructor (Z.of_nat day) hour ∧
       match getInstructor (Z.of_nat day) hour with
       | Some who =>
           ∃ colour, colorOf who = Some colour ∧
                     td_className td = (base +:+ (colour +:+ " p-2")) +:+ " relative"
       | None =>
           td_className td =
             (if ((dayOfWeek =? 0) || (dayOfWeek =? 6))%Z
              then base +:+ "bg-gray-100 dark:bg-gray-900/40 "
              else if day =? 20 then base +:+ "bg-gray-100 dark:bg-gray-700/50 "
              else base) +:+ " relative"
       end.
Proof.
  intros Hday Hhour Hgrid Hrows Htd.
  assert (hours cal ≠ []) as Hne by (intros Hno; by rewrite Hno in Hhour).
  destruct (render_built_grid dateGetDay cal Hne)
    as (grid' & rows' & Hok & Hrender & _ & Hcols).
  rewrite Hgrid in Hok. injection Hok as <-.
  rewrite Hrows in Hrender. injection Hrender as <-.
  rewrite Hcols, list_lookup_fmap in Htd by done.
  destruct (dayColumn getInstructor cal day !! h) as [c|] eqn:Hc; [|done].
  simpl in Htd. unfold tdIfVisible in Htd.
  destruct (hidden c) eqn:Hvis; [done|]. injection Htd as <-.
  cbv zeta. case_bool_decide as Hhol.
  - rewrite dayColumn_holiday in Hc by done. unfold holidayColumn in Hc.
    destruct h as [|h]; simpl in Hc.
    + injection Hc as <-. done.
    + apply lookup_replicate in Hc as [-> _]. done.
  - rewrite dayColumn_working, cellsFrom_lookup in Hc by done.
    unfold dayValues in Hc. rewrite list_lookup_fmap, Hhour in Hc.
    simpl in Hc. injection Hc as <-.
    unfold cellFor in Hvis |- *.
    destruct (truthy (getInstructor (Z.of_nat day) hour) && _); [done|].
    assert (∀ n, td_text (tdOf dateGetDay cal day
                   (mkCell (getInstructor (Z.of_nat day) hour) n false))
                 = getInstructor (Z.of_nat day) hour) as Htext by done.
    assert (∀ n,
      match getInstructor (Z.of_nat day) hour with
      | Some who =>
          ∃ colour, colorOf who = Some colour ∧
            td_className (tdOf dateGetDay cal day
              (mkCell (getInstructor (Z.of_nat day) hour) n false)) =
            ("border-r border-b border-gray-300 dark:border-gray-600 font-medium align-top "
             +:+ (colour +:+ " p-2")) +:+ " relative"
      | None =>
          td_className (tdOf dateGetDay cal day
            (mkCell (getInstructor (Z.of_nat day) hour) n false)) =
          (if ((dateGetDay (YEAR cal) (MONTH cal) day =? 0)
               || (dateGetDay (YEAR cal) (MONTH cal) day =? 6))%Z
           then "border-r border-b border-gray-300 dark:border-gray-600 font-medium align-top "
                +:+ "bg-gray-100 dark:bg-gray-900/40 "
           else if day =? 20
           then "border-r border-b border-gray-300 dark:border-gray-600 font-medium align-top "
                +:+ "bg-gray-100 dark:bg-gray-700/50 "
           else "border-r border-b border-gray-300 dark:border-gray-600 font-medium align-top ")
          +:+ " relative"
      end) as Hclass.
    { intros n. destruct (getInstructor (Z.of_nat day) hour) as [who|] eqn:Hwho.
      - destruct (getInstructor_named _ _ _ Hwho) as [[colour Hcolour] Hnot].
        exists colour. split; [done|].
        unfold tdOf, cellClass. cbn [td_className instructor].
        rewrite decide_False by (intros [= ?]; done).
        rewrite (getInstructor_truthy _ _ _ Hwho). simpl. by rewrite Hcolour.
      - unfold tdOf, cellClass. cbn [td_className instructor].
        rewrite decide_False by done. cbn [truthy].
        rewrite bool_decide_eq_false_2 by done.
        by repeat case_match. }
    destruct (truthy (getInstructor (Z.of_nat day) hour));
      (split; [apply Htext|apply Hclass]).
Qed.

(** ** The further properties on concrete calendars *)

(** The first row of the page's table: day 9 starts with "Sosa" over two
    rows, and the holidays 5, 6, 10 and 25 with one cell over thirteen. *)
Example page_first_row :
  (fun row => (fun td => (td_key td, td_rowSpan td, td_text td)) <$>
              omap id (take 10 (tr_cells row))) <$> pageRows !! 0
  = Some [(1, 1, None); (2, 1, None); (3, 1, None); (4, 1, None);
          (5, 13, Some "休み"); (6, 13, Some "休み"); (7, 1, None);
          (8, 1, None); (9, 2, Some "Sosa"); (10, 13, Some "休み")].
Proof. vm_compute. reflexivity. Qed.

Lemma assigned_instructor_has_colour_witness :
  "Sosa" ∈ ["Sosa"; "Gota"; "Emi"; "Kayo"] ∧
  is_Some (colorOf "Sosa") ∧
  "Sosa" ≠ "休み".
Proof. apply (assigned_instructor_has_colour 9 8 "Sosa"). reflexivity. Defined.

Lemma day_column_depends_on_its_day_witness :
  ∃ g1 g2,
    scheduleGrid calendarInfo = Ok g1 ∧ scheduleGrid shortMonth = Ok g2 ∧
    column (5 - 1) g1 = column (5 - 1) g2.
Proof.
  apply (day_column_depends_on_its_day calendarInfo shortMonth 5).
  - reflexivity.
  - discriminate.
  - simpl. lia.
  - simpl. lia.
  - simpl. rewrite !elem_of_cons. split; intros _; auto.
Defined.

Lemma rendered_spans_fit_witness :
  ∃ grid rows,
    scheduleGrid calendarInfo = Ok grid ∧
    renderBody november2025GetDay calendarInfo grid = Ok rows ∧
    tr_hour <$> rows = hours calendarInfo ∧
    ∀ d, d < daysInMonth calendarInfo →
         length (renderedColumn d rows) = length (hours calendarInfo) ∧
         spansFit 0 (renderedColumn d rows) = true.
Proof.
  apply (rendered_spans_fit november2025GetDay calendarInfo). discriminate.
Defined.

Lemma shown_text_is_engine_value_witness :
  ∃ grid rows,
    scheduleGrid calendarInfo = Ok grid ∧
    renderBody november2025GetDay calendarInfo grid = Ok rows ∧
    shownTexts None (renderedColumn (20 - 1) rows) =
      if bool_decide (Z.of_nat 20 ∈ holidays calendarInfo)
      then replicate (length (hours calendarInfo)) (Some "休み")
      else dayValues getInstructor calendarInfo 20.
Proof.
  apply (shown_text_is_engine_value november2025GetDay calendarInfo 20).
  - discriminate.
  - simpl. lia.
Defined.

Lemma every_hour_row_is_marked_witness :
  ∃ grid rows,
    scheduleGrid calendarInfo = Ok grid ∧
    renderBody november2025GetDay calendarInfo grid = Ok rows ∧
    ∀ d, d < daysInMonth calendarInfo →
         markedRows (renderedColumn d rows) = length (hours calendarInfo).
Proof.
  apply (every_hour_row_is_marked november2025GetDay calendarInfo). discriminate.
Defined.

Lemma rendered_class_of_slot_witness :
  let td := tdOf november2025GetDay calendarInfo 1 (mkCell (Some "Kayo") 7 false) in
  td_text td = Some "Kayo" ∧
  ∃ colour,
    colorOf "Kayo" = Some colour ∧
    td_className td =
      ("border-r border-b border-gray-300 dark:border-gray-600 font-medium align-top "
       +:+ (colour +:+ " p-2")) +:+ " relative".
Proof.
  apply (rendered_class_of_slot november2025GetDay calendarInfo pageGrid pageRows
           1 2 10).
  - simpl. lia.
  - reflexivity.
  - vm_compute. reflexivity.
  - vm_compute. reflexivity.
  - vm_compute. reflexivity.
Defined.
